(** * Roulette Tracker prediction server: the physics core of [server.py]

    A shallow embedding of the pure numeric core of the server
    ([calculate_angular_velocity], [calculate_deceleration],
    [predict_for_direction], [compute_predictions]) and the properties
    the specification states about it.

    Python's [float] is IEEE-754 binary64.  It is modelled by the
    Standard Library's executable specification of binary floating-point
    numbers ([spec_float], with precision 53 and maximal exponent 1024,
    rounding to nearest-even), so that every operation of the program is
    a Rocq function that evaluates and can be reasoned about without
    assuming anything on machine floats. *)

From Stdlib Require Import ZArith QArith List String Bool Lia Permutation Finite.
From Stdlib Require Import SpecFloat PrimFloat FloatOps.
Import ListNotations.

Set Warnings "-inexact-float".
Local Open Scope Z_scope.

(* ===================================================================== *)
(** * Binary64 arithmetic *)
(* ===================================================================== *)

Module F64.

(** A Python [float]. *)
Definition t : Type := spec_float.

(** A literal of the source, rounded to the nearest binary64 value as
    Python's parser does. *)
Definition lit (x : PrimFloat.float) : t := Prim2SF x.

Definition add : t -> t -> t := SFadd prec emax.
Definition sub : t -> t -> t := SFsub prec emax.
Definition mul : t -> t -> t := SFmul prec emax.
Definition div : t -> t -> t := SFdiv prec emax.
Definition sqrt : t -> t := SFsqrt prec emax.
Definition neg : t -> t := SFopp.
Definition abs : t -> t := SFabs.
Definition ltb : t -> t -> bool := SFltb.
Definition leb : t -> t -> bool := SFleb.
Definition eqb : t -> t -> bool := SFeqb.

(** Conversion of a Python [int] in a mixed expression ([2 * math.pi],
    [n * sum_xy], [sum(...) / len(...)]): rounded to nearest-even. *)
Definition of_Z (n : Z) : t := binary_normalize prec emax n 0 false.
Definition of_nat (n : nat) : t := of_Z (Z.of_nat n).

Definition nan : t := S754_nan.

(** [math.isfinite]. *)
Definition isfinite (x : t) : bool :=
  match x with
  | S754_zero _ | S754_finite _ _ _ => true
  | S754_infinity _ | S754_nan => false
  end.

Definition is_nan (x : t) : bool :=
  match x with S754_nan => true | _ => false end.

(** The integer part of a finite float, towards zero. *)
Definition trunc (x : t) : option Z :=
  match x with
  | S754_zero _ => Some 0
  | S754_finite s m e =>
      let a := if 0 <=? e then Z.pos m * 2 ^ e else Z.pos m / 2 ^ (- e) in
      Some (if s then - a else a)
  | S754_infinity _ | S754_nan => None
  end.

(** The largest integer below a finite float. *)
Definition floor (x : t) : option Z :=
  match x with
  | S754_zero _ => Some 0
  | S754_finite s m e =>
      let n := if s then Z.neg m else Z.pos m in
      Some (if 0 <=? e then n * 2 ^ e else n / 2 ^ (- e))
  | S754_infinity _ | S754_nan => None
  end.

(** The sign bit is clear, or the value is not a number. *)
Definition nonneg_sign (x : t) : bool :=
  match x with
  | S754_zero s | S754_infinity s | S754_finite s _ _ => negb s
  | S754_nan => true
  end.

End F64.

Declare Scope f64_scope.
Delimit Scope f64_scope with f64.
Bind Scope f64_scope with F64.t.
Infix "+" := F64.add : f64_scope.
Infix "-" := F64.sub : f64_scope.
Infix "*" := F64.mul : f64_scope.
Infix "/" := F64.div : f64_scope.
Notation "- x" := (F64.neg x) : f64_scope.
Infix "<?" := F64.ltb : f64_scope.
Infix "<=?" := F64.leb : f64_scope.
Infix "=?" := F64.eqb : f64_scope.

(** The literals of the program. *)
Definition f0_0 : F64.t := Eval vm_compute in F64.lit 0.0.
Definition f0_1 : F64.t := Eval vm_compute in F64.lit 0.1.
Definition f0_5 : F64.t := Eval vm_compute in F64.lit 0.5.
Definition f1_0 : F64.t := Eval vm_compute in F64.lit 1.0.
Definition f2_0 : F64.t := Eval vm_compute in F64.lit 2.0.
Definition f3_0 : F64.t := Eval vm_compute in F64.lit 3.0.
Definition f5_0 : F64.t := Eval vm_compute in F64.lit 5.0.

(* ===================================================================== *)
(** * Exceptions *)
(* ===================================================================== *)

Inductive exn : Type :=
| ValueError (msg : string)
| OverflowError (msg : string)
| IndexError (msg : string).

Inductive result (A : Type) : Type :=
| Ok (a : A)
| Raise (e : exn).
Arguments Ok {A} a.
Arguments Raise {A} e.

Definition bind {A B : Type} (c : result A) (k : A -> result B) : result B :=
  match c with
  | Ok a => k a
  | Raise e => Raise e
  end.

Notation "x <- c ;; k" := (bind c (fun x => k))
  (at level 61, c at next level, right associativity).
Notation "' p <- c ;; k" := (bind c (fun x => match x with p => k end))
  (at level 61, p pattern, c at next level, right associativity).

(* ===================================================================== *)
(** * Built-ins and [math] *)
(* ===================================================================== *)

(** [sum(xs)] on floats: the accumulator starts at [0] and the items are
    added from left to right in binary64.  This is the plain summation
    of CPython up to 3.11; from 3.12 on [sum] compensates the rounding
    errors, which can change the last bits of a sum of three or more
    items and nothing in the shape of the results below. *)
Definition py_sum (xs : list F64.t) : F64.t :=
  fold_left F64.add xs f0_0.

(** [xs[i]]: a negative index counts from the end; outside the list the
    lookup raises. *)
Definition getitem {A : Type} (xs : list A) (i : Z) : result A :=
  let j := if i <? 0 then Z.of_nat (List.length xs) + i else i in
  if j <? 0 then Raise (IndexError "list index out of range")
  else match nth_error xs (Z.to_nat j) with
       | Some x => Ok x
       | None => Raise (IndexError "list index out of range")
       end.

(** [int(x)] on a float: the integer part, towards zero; infinities and
    NaN have none. *)
Definition py_int (x : F64.t) : result Z :=
  match F64.trunc x with
  | Some n => Ok n
  | None =>
      if F64.is_nan x
      then Raise (ValueError "cannot convert float NaN to integer")
      else Raise (OverflowError "cannot convert float infinity to integer")
  end.

(** [math.sqrt]: a domain error below zero; the square root of NaN is
    NaN and that of -0.0 is -0.0. *)
Definition math_sqrt (x : F64.t) : result F64.t :=
  match x with
  | S754_finite true _ _ | S754_infinity true =>
      Raise (ValueError "math domain error")
  | _ => Ok (F64.sqrt x)
  end.

(** [math.pi]. *)
Definition math_pi : F64.t := Eval vm_compute in F64.lit 0x1.921fb54442d18p+1.

(* ===================================================================== *)
(** * Constants (server.py:18-25) *)
(* ===================================================================== *)

Definition ROULETTE_SEQUENCE : list Z :=
  [ 0; 32; 15; 19; 4; 21; 2; 25; 17; 34; 6; 27; 13;
    36; 11; 30; 8; 23; 10; 5; 24; 16; 33; 1; 20;
    14; 31; 9; 22; 18; 29; 7; 28; 12; 35; 3; 26 ].

Definition G : F64.t := Eval vm_compute in F64.lit 9.81.
Definition ALPHA : F64.t := Eval vm_compute in F64.lit 0.02.

(** [math.tan] is a routine of the C library and not an IEEE-754 basic
    operation.  The program calls it at [ALPHA] only, where it returns
    0.020002667093402423, the binary64 number nearest to the tangent.
    The general results below do not depend on this value. *)
Definition math_tan_ALPHA : F64.t :=
  Eval vm_compute in F64.lit 0x1.47b9443fee9cfp-6.

(* ===================================================================== *)
(** * Data models (server.py:32-42) *)
(* ===================================================================== *)

Record MarksRequest : Type := {
  wheel_times : list F64.t;
  ball_times : list F64.t;
  wheel_marks : Z;
  ball_marks : Z;
  mode : string
}.

Record MarksResponse : Type := {
  left_prediction : Z;
  right_prediction : Z
}.

(* ===================================================================== *)
(** * Core physics helpers (server.py:49-88) *)
(* ===================================================================== *)

Local Open Scope f64_scope.

(** [times[i]] inside [for i in range(1, len(times))]: both [i] and
    [i - 1] are positions of the list there ([range1_in_bounds]), so the
    lookup cannot fail and the default value is never returned. *)
Definition at_index (times : list F64.t) (i : nat) : F64.t :=
  nth i times F64.nan.

(** [range(1, len(times))]. *)
Definition range1 (times : list F64.t) : list nat :=
  seq 1 (List.length times - 1).

(** server.py:49-55 *)
Definition calculate_angular_velocity (times : list F64.t) : F64.t :=
  if (List.length times <? 2)%nat then f0_0
  else
    let periods :=
      map (fun i => at_index times i - at_index times (i - 1)) (range1 times) in
    let avg_period := py_sum periods / F64.of_nat (List.length periods) in
    if F64.of_Z 0 <? avg_period then f1_0 / avg_period else f0_0.

(** One iteration of the loop of server.py:66-71 on the two lists it
    appends to. *)
Definition deceleration_step (times : list F64.t)
    (acc : list F64.t * list F64.t) (i : nat) : list F64.t * list F64.t :=
  let '(velocities, time_points) := acc in
  let dt := at_index times i - at_index times (i - 1) in
  if dt <=? F64.of_Z 0 then (velocities, time_points)
  else (velocities ++ [F64.of_Z 2 * math_pi / dt],
        time_points ++ [(at_index times i + at_index times (i - 1)) / f2_0]).

(** server.py:58-88 *)
Definition calculate_deceleration (times : list F64.t) : F64.t :=
  if (List.length times <? 3)%nat then f0_0
  else
    let '(velocities, time_points) :=
      fold_left (deceleration_step times) (range1 times) ([], []) in
    if (List.length velocities <? 2)%nat then f0_0
    else
      let n := List.length velocities in
      let sum_x := py_sum time_points in
      let sum_y := py_sum velocities in
      let sum_xy :=
        py_sum (map (fun '(x, v) => x * v) (combine time_points velocities)) in
      let sum_x2 := py_sum (map (fun x => x * x) time_points) in
      let denom := F64.of_nat n * sum_x2 - sum_x * sum_x in
      if denom =? F64.of_Z 0 then f0_0
      else
        let slope := (F64.of_nat n * sum_xy - sum_x * sum_y) / denom in
        - slope.

(* ===================================================================== *)
(** * The predictor (server.py:91-147) *)
(* ===================================================================== *)

(** server.py:91-138.  The local variables keep their names; a variable
    assigned twice is bound twice. *)
Definition predict_for_direction
    (wheel_times ball_times : list F64.t) (wheel_direction : string)
  : result Z :=
  let wheel_omega :=
    F64.of_Z 2 * math_pi * calculate_angular_velocity wheel_times in
  let ball_omega :=
    F64.of_Z 2 * math_pi * calculate_angular_velocity ball_times in
  let wheel_alpha := calculate_deceleration wheel_times in
  let ball_alpha := calculate_deceleration ball_times in

  let wheel_alpha :=
    if wheel_alpha <=? F64.of_Z 0 then f0_1 else wheel_alpha in
  let ball_alpha :=
    if ball_alpha <=? F64.of_Z 0 then f0_1 else ball_alpha in
  let wheel_omega :=
    if wheel_omega <=? F64.of_Z 0 then f1_0 else wheel_omega in
  let ball_omega :=
    if ball_omega <=? F64.of_Z 0 then f2_0 else ball_omega in

  let critical_velocity_squared := G * math_tan_ALPHA * f0_5 in

  (* [and] evaluates its second operand only when the first holds *)
  t_drop <-
    (if F64.of_Z 0 <? ball_alpha then
       c <- math_sqrt critical_velocity_squared ;;
       if c <? ball_omega then
         c' <- math_sqrt critical_velocity_squared ;;
         Ok ((ball_omega - c') / ball_alpha)
       else Ok f3_0
     else Ok f3_0) ;;

  let t_drop := if t_drop <? F64.of_Z 0 then f3_0 else t_drop in
  let t_drop := if F64.of_Z 10 <? t_drop then f5_0 else t_drop in

  let theta_ball :=
    ball_omega * t_drop - f0_5 * ball_alpha * t_drop * t_drop in
  let theta_wheel :=
    wheel_omega * t_drop - f0_5 * wheel_alpha * t_drop * t_drop in

  let theta_ball :=
    if negb (F64.isfinite theta_ball)
    then F64.of_Z 2 * math_pi * F64.of_Z 3 else theta_ball in
  let theta_wheel :=
    if negb (F64.isfinite theta_wheel)
    then F64.of_Z 2 * math_pi * F64.of_Z 2 else theta_wheel in

  let '(relative_angle, direction_offset) :=
    if String.eqb wheel_direction "left" then
      ((theta_ball + theta_wheel) / (F64.of_Z 2 * math_pi), 12%Z)
    else
      ((theta_ball - theta_wheel) / (F64.of_Z 2 * math_pi), 0%Z) in

  pocket_offset <-
    (n <- py_int (F64.abs relative_angle * F64.of_Z 37) ;; Ok (n mod 37)%Z) ;;
  let scatter_offset := 5%Z in
  let final_pocket_index :=
    ((pocket_offset + scatter_offset + direction_offset) mod 37)%Z in

  getitem ROULETTE_SEQUENCE final_pocket_index.

Local Close Scope f64_scope.

(** server.py:141-147 *)
Definition compute_predictions (req : MarksRequest) : result MarksResponse :=
  if (List.length (wheel_times req) <? 2)%nat
     || (List.length (ball_times req) <? 2)%nat
  then Raise (ValueError "Not enough marks to compute prediction")
  else
    left <- predict_for_direction
              (wheel_times req) (ball_times req) "left" ;;
    right <- predict_for_direction
               (wheel_times req) (ball_times req) "right" ;;
    Ok {| left_prediction := left; right_prediction := right |}.

(* ===================================================================== *)
(** * The stages of [predict_for_direction] *)
(* ===================================================================== *)

Local Open Scope f64_scope.

(** The four kinematic estimates held in the local variables
    [wheel_omega], [ball_omega], [wheel_alpha], [ball_alpha]. *)
Record estimates : Type := {
  wheel_omega : F64.t;
  ball_omega : F64.t;
  wheel_alpha : F64.t;
  ball_alpha : F64.t
}.

(** server.py:93-96 *)
Definition raw_estimates (wheel_times ball_times : list F64.t) : estimates :=
  {| wheel_omega :=
       F64.of_Z 2 * math_pi * calculate_angular_velocity wheel_times;
     ball_omega :=
       F64.of_Z 2 * math_pi * calculate_angular_velocity ball_times;
     wheel_alpha := calculate_deceleration wheel_times;
     ball_alpha := calculate_deceleration ball_times |}.

(** server.py:98-105 *)
Definition floor_defaults (e : estimates) : estimates :=
  {| wheel_omega :=
       if wheel_omega e <=? F64.of_Z 0 then f1_0 else wheel_omega e;
     ball_omega :=
       if ball_omega e <=? F64.of_Z 0 then f2_0 else ball_omega e;
     wheel_alpha :=
       if wheel_alpha e <=? F64.of_Z 0 then f0_1 else wheel_alpha e;
     ball_alpha :=
       if ball_alpha e <=? F64.of_Z 0 then f0_1 else ball_alpha e |}.

(** server.py:107 *)
Definition critical_velocity_squared : F64.t := G * math_tan_ALPHA * f0_5.

(** server.py:109-117, on the estimates after [floor_defaults]. *)
Definition drop_time (e : estimates) : result F64.t :=
  t_drop <-
    (if F64.of_Z 0 <? ball_alpha e then
       c <- math_sqrt critical_velocity_squared ;;
       if c <? ball_omega e then
         c' <- math_sqrt critical_velocity_squared ;;
         Ok ((ball_omega e - c') / ball_alpha e)
       else Ok f3_0
     else Ok f3_0) ;;
  let t_drop := if t_drop <? F64.of_Z 0 then f3_0 else t_drop in
  let t_drop := if F64.of_Z 10 <? t_drop then f5_0 else t_drop in
  Ok t_drop.

(** server.py:119-125: the pair [(theta_ball, theta_wheel)]. *)
Definition travel (e : estimates) (t_drop : F64.t) : F64.t * F64.t :=
  let theta_ball :=
    ball_omega e * t_drop - f0_5 * ball_alpha e * t_drop * t_drop in
  let theta_wheel :=
    wheel_omega e * t_drop - f0_5 * wheel_alpha e * t_drop * t_drop in
  let theta_ball :=
    if negb (F64.isfinite theta_ball) then F64.of_Z 2 * math_pi * F64.of_Z 3
    else theta_ball in
  let theta_wheel :=
    if negb (F64.isfinite theta_wheel) then F64.of_Z 2 * math_pi * F64.of_Z 2
    else theta_wheel in
  (theta_ball, theta_wheel).

(** server.py:93-125: the travel angles of ball and wheel for the two
    timestamp lists. *)
Definition travel_angles (wheel_times ball_times : list F64.t)
  : result (F64.t * F64.t) :=
  let e := floor_defaults (raw_estimates wheel_times ball_times) in
  t_drop <- drop_time e ;;
  Ok (travel e t_drop).

(** server.py:127-132: the pair [(relative_angle, direction_offset)]. *)
Definition relative (wheel_direction : string) (theta_ball theta_wheel : F64.t)
  : F64.t * Z :=
  if String.eqb wheel_direction "left" then
    ((theta_ball + theta_wheel) / (F64.of_Z 2 * math_pi), 12%Z)
  else
    ((theta_ball - theta_wheel) / (F64.of_Z 2 * math_pi), 0%Z).

(** server.py:135-136 *)
Definition final_pocket_index (pocket_offset direction_offset : Z) : Z :=
  let scatter_offset := 5%Z in
  ((pocket_offset + scatter_offset + direction_offset) mod 37)%Z.

(** server.py:134-138 *)
Definition select_pocket (relative_angle : F64.t) (direction_offset : Z)
  : result Z :=
  n <- py_int (F64.abs relative_angle * F64.of_Z 37) ;;
  let pocket_offset := (n mod 37)%Z in
  getitem ROULETTE_SEQUENCE (final_pocket_index pocket_offset direction_offset).

Local Close Scope f64_scope.

(** ** [compute_predictions] and the calls it makes

    To speak of how often and in which order [predict_for_direction] is
    invoked, [compute_predictions] is run a second time in a monad that
    carries, next to the result or the exception, the list of the
    directions [predict_for_direction] was invoked for. *)

Definition traced (A : Type) : Type := (result A * list string)%type.

Definition tret {A : Type} (a : A) : traced A := (Ok a, []).
Definition traise {A : Type} (e : exn) : traced A := (Raise e, []).
Definition tbind {A B : Type} (c : traced A) (k : A -> traced B) : traced B :=
  match fst c with
  | Ok a => (fst (k a), snd c ++ snd (k a))
  | Raise e => (Raise e, snd c)
  end.

Notation "x <-- c ;; k" := (tbind c (fun x => k))
  (at level 61, c at next level, right associativity).

(** A call of [predict_for_direction], recorded. *)
Definition call_predict_for_direction
    (wheel_times ball_times : list F64.t) (wheel_direction : string)
  : traced Z :=
  (predict_for_direction wheel_times ball_times wheel_direction,
   [wheel_direction]).

(** server.py:141-147, with the calls recorded. *)
Definition compute_predictions_traced (req : MarksRequest)
  : traced MarksResponse :=
  if (List.length (wheel_times req) <? 2)%nat
     || (List.length (ball_times req) <? 2)%nat
  then traise (ValueError "Not enough marks to compute prediction")
  else
    left <-- call_predict_for_direction
               (wheel_times req) (ball_times req) "left" ;;
    right <-- call_predict_for_direction
                (wheel_times req) (ball_times req) "right" ;;
    tret {| left_prediction := left; right_prediction := right |}.

(* ===================================================================== *)
(** * The quantities the specification speaks of *)
(* ===================================================================== *)

(** The indices (and the pocket numbers) of a single-zero wheel. *)
Definition pockets : list Z := map Z.of_nat (seq 0 37).

(** A timestamp is a finite number. *)
Definition finite_times (times : list F64.t) : Prop :=
  Forall (fun x => F64.isfinite x = true) times.

Local Open Scope f64_scope.

(** The consecutive pairs [(t0, t1), (t1, t2), ...] of a list of
    timestamps. *)
Fixpoint consecutive_pairs (times : list F64.t) : list (F64.t * F64.t) :=
  match times with
  | a :: (b :: _) as rest => (a, b) :: consecutive_pairs rest
  | _ => []
  end.

(** The successive inter-mark periods [t1 - t0, t2 - t1, ...]. *)
Definition successive_differences (times : list F64.t) : list F64.t :=
  map (fun '(a, b) => b - a) (consecutive_pairs times).

(** The average of a list of floats. *)
Definition average (xs : list F64.t) : F64.t :=
  py_sum xs / F64.of_nat (List.length xs).

(** The gap between two consecutive timestamps is positive. *)
Definition positive_gap (p : F64.t * F64.t) : bool :=
  F64.of_Z 0 <? snd p - fst p.

(** The regression samples: for each consecutive pair of timestamps with
    a positive gap [dt], the midpoint time and the velocity
    [2 pi / dt]. *)
Definition samples (times : list F64.t) : list (F64.t * F64.t) :=
  map (fun '(a, b) => ((b + a) / f2_0, F64.of_Z 2 * math_pi / (b - a)))
      (filter positive_gap (consecutive_pairs times)).

(** Ordinary least squares of [y] against [x] over the points
    [(x, y)]: the denominator [n Sxx - Sx^2] and the slope. *)
Definition ols_denominator (pts : list (F64.t * F64.t)) : F64.t :=
  let n := F64.of_nat (List.length pts) in
  let sx := py_sum (map fst pts) in
  let sxx := py_sum (map (fun p => fst p * fst p) pts) in
  n * sxx - sx * sx.

Definition ols_slope (pts : list (F64.t * F64.t)) : F64.t :=
  let n := F64.of_nat (List.length pts) in
  let sx := py_sum (map fst pts) in
  let sy := py_sum (map snd pts) in
  let sxy := py_sum (map (fun p => fst p * snd p) pts) in
  (n * sxy - sx * sy) / ols_denominator pts.

(** The regression of [calculate_deceleration] on the list of samples
    it built. *)
Definition regression (pts : list (F64.t * F64.t)) : F64.t :=
  if (List.length pts <? 2)%nat then f0_0
  else if ols_denominator pts =? F64.of_Z 0 then f0_0
       else - ols_slope pts.

(** ** The loops over [range(1, len(times))], pair by pair *)

(** The pair [(times[i - 1], times[i])] that iteration [i] reads. *)
Definition pair_at (times : list F64.t) (i : nat) : F64.t * F64.t :=
  (at_index times (i - 1), at_index times i).

(** The body of the loop of server.py:66-71 on the pair it reads. *)
Definition deceleration_step_pair
    (acc : list F64.t * list F64.t) (p : F64.t * F64.t)
  : list F64.t * list F64.t :=
  if snd p - fst p <=? F64.of_Z 0 then acc
  else (fst acc ++ [F64.of_Z 2 * math_pi / (snd p - fst p)],
        snd acc ++ [(snd p + fst p) / f2_0]).

(** The pairs the loop keeps: those it does not [continue] on. *)
Definition kept (p : F64.t * F64.t) : bool :=
  negb (snd p - fst p <=? F64.of_Z 0).

(** The sample (midpoint time, velocity) of a pair. *)
Definition sample_of (p : F64.t * F64.t) : F64.t * F64.t :=
  ((snd p + fst p) / f2_0, F64.of_Z 2 * math_pi / (snd p - fst p)).

(** The square root of the critical velocity squared, as a number. *)
Definition critical_velocity : F64.t := F64.sqrt critical_velocity_squared.

(** The clamp of the drop time: negative to 3.0, above 10 to 5.0. *)
Definition clamp_drop_time (t : F64.t) : F64.t :=
  let t := if t <? F64.of_Z 0 then f3_0 else t in
  if F64.of_Z 10 <? t then f5_0 else t.

(** The drop time in the words of the specification: the quotient when
    the ball is faster than the critical velocity, 3.0 otherwise, then
    clamped. *)
Definition drop_time_spec (e : estimates) : F64.t :=
  clamp_drop_time
    (if critical_velocity <? ball_omega e
     then (ball_omega e - critical_velocity) / ball_alpha e
     else f3_0).

(** The drop time with the guard on the deceleration that the program
    has. *)
Definition drop_time_guarded (e : estimates) : F64.t :=
  clamp_drop_time
    (if (F64.of_Z 0 <? ball_alpha e) && (critical_velocity <? ball_omega e)
     then (ball_omega e - critical_velocity) / ball_alpha e
     else f3_0).

Local Close Scope f64_scope.

(** The exact value of a finite float, as a rational number. *)
Definition exact_value (x : F64.t) : option Q :=
  match x with
  | S754_zero _ => Some 0%Q
  | S754_finite s m e =>
      let n := if s then Z.neg m else Z.pos m in
      Some (if 0 <=? e then inject_Z (n * 2 ^ e)
            else Qmake n (Z.to_pos (2 ^ (- e))))
  | S754_infinity _ | S754_nan => None
  end.

(** The timestamps are spaced by exactly [p], as real numbers. *)
Fixpoint uniformly_spaced (p : Q) (times : list F64.t) : bool :=
  match times with
  | a :: (b :: _) as rest =>
      match exact_value a, exact_value b with
      | Some qa, Some qb => Qeq_bool (qb - qa) p && uniformly_spaced p rest
      | _, _ => false
      end
  | _ => true
  end.

(** Both timing sequences have at least two entries. *)
Definition sufficient (req : MarksRequest) : Prop :=
  (2 <= List.length (wheel_times req))%nat /\
  (2 <= List.length (ball_times req))%nat.

(** A request carrying the two timing sequences. *)
Definition mk_request (wheel ball : list F64.t) : MarksRequest :=
  {| wheel_times := wheel; ball_times := ball;
     wheel_marks := Z.of_nat (List.length wheel);
     ball_marks := Z.of_nat (List.length ball);
     mode := "3x3" |}.

(** Sample inputs. *)
Module Samples.
Definition wheel_example : list F64.t :=
  Eval vm_compute in map F64.lit [0.0; 0.5; 1.0; 1.5]%float.
Definition ball_example : list F64.t :=
  Eval vm_compute in map F64.lit [0.0; 0.1; 0.22; 0.36]%float.
(** One wheel turn per second. *)
Definition wheel_slow : list F64.t :=
  Eval vm_compute in map F64.lit [0.0; 1.0]%float.
(** Two ball marks 2.1e-307 seconds apart. *)
Definition ball_fast : list F64.t :=
  Eval vm_compute in map F64.lit [0.0; 2.1e-307]%float.
(** The smallest positive gap, then one second. *)
Definition ball_tiny_gap : list F64.t :=
  Eval vm_compute in map F64.lit [0.0; 5e-324; 1.0]%float.
(** Four marks spaced by exactly the float 0.1. *)
Definition tenths : list F64.t :=
  Eval vm_compute in map F64.lit [-0.1; 0.0; 0.1; 0.2]%float.
End Samples.

(* ===================================================================== *)
(** * The program with Python's raising division, and the endpoint *)
(* ===================================================================== *)

(** In Python the division of floats raises [ZeroDivisionError] on a
    zero divisor, where IEEE-754 returns an infinity or NaN.  The
    functions above use the IEEE division; here every function of the
    program is written once more with the raising division, each [/] of
    the source in its place, and the two are compared below. *)
Module Checked.

(** What the program can raise: a [ZeroDivisionError], or one of the
    exceptions of the built-ins. *)
Inductive raised : Type :=
| ZeroDivisionError (msg : string)
| Builtin (e : exn).

Inductive outcome (A : Type) : Type :=
| Returns (a : A)
| Raises (r : raised).
Arguments Returns {A} a.
Arguments Raises {A} r.

Definition obind {A B : Type} (c : outcome A) (k : A -> outcome B)
  : outcome B :=
  match c with
  | Returns a => k a
  | Raises r => Raises r
  end.

(** A result of a built-in, among the outcomes. *)
Definition lift {A : Type} (c : result A) : outcome A :=
  match c with
  | Ok a => Returns a
  | Raise e => Raises (Builtin e)
  end.

(** [x / y] on floats. *)
Definition truediv (x y : F64.t) : outcome F64.t :=
  match y with
  | S754_zero _ => Raises (ZeroDivisionError "float division by zero")
  | _ => Returns (F64.div x y)
  end.

End Checked.

Notation "x <~ c ;; k" := (Checked.obind c (fun x => k))
  (at level 61, c at next level, right associativity).
Notation "' p <~ c ;; k" :=
  (Checked.obind c (fun x => match x with p => k end))
  (at level 61, p pattern, c at next level, right associativity).

Module CheckedProgram.
Import Checked.
Local Open Scope f64_scope.

(** server.py:49-55 *)
Definition calculate_angular_velocity (times : list F64.t)
  : outcome F64.t :=
  if (List.length times <? 2)%nat then Returns f0_0
  else
    let periods :=
      map (fun i => at_index times i - at_index times (i - 1)) (range1 times) in
    avg_period <~
      truediv (py_sum periods) (F64.of_nat (List.length periods)) ;;
    if F64.of_Z 0 <? avg_period then truediv f1_0 avg_period
    else Returns f0_0.

(** One iteration of the loop of server.py:66-71. *)
Definition deceleration_step (times : list F64.t)
    (acc : list F64.t * list F64.t) (i : nat)
  : outcome (list F64.t * list F64.t) :=
  let '(velocities, time_points) := acc in
  let dt := at_index times i - at_index times (i - 1) in
  if dt <=? F64.of_Z 0 then Returns (velocities, time_points)
  else
    v <~ truediv (F64.of_Z 2 * math_pi) dt ;;
    x <~ truediv (at_index times i + at_index times (i - 1)) f2_0 ;;
    Returns (velocities ++ [v], time_points ++ [x]).

(** The loop: an exception of an iteration ends it. *)
Definition deceleration_loop (times : list F64.t) (idx : list nat)
    (acc : list F64.t * list F64.t)
  : outcome (list F64.t * list F64.t) :=
  fold_left (fun c i => a <~ c ;; deceleration_step times a i)
            idx (Returns acc).

(** server.py:58-88 *)
Definition calculate_deceleration (times : list F64.t) : outcome F64.t :=
  if (List.length times <? 3)%nat then Returns f0_0
  else
    '(velocities, time_points) <~
      deceleration_loop times (range1 times) ([], []) ;;
    if (List.length velocities <? 2)%nat then Returns f0_0
    else
      let n := List.length velocities in
      let sum_x := py_sum time_points in
      let sum_y := py_sum velocities in
      let sum_xy :=
        py_sum (map (fun '(x, v) => x * v) (combine time_points velocities)) in
      let sum_x2 := py_sum (map (fun x => x * x) time_points) in
      let denom := F64.of_nat n * sum_x2 - sum_x * sum_x in
      if denom =? F64.of_Z 0 then Returns f0_0
      else
        slope <~ truediv (F64.of_nat n * sum_xy - sum_x * sum_y) denom ;;
        Returns (- slope).

(** server.py:91-138 *)
Definition predict_for_direction
    (wheel_times ball_times : list F64.t) (wheel_direction : string)
  : outcome Z :=
  w <~ calculate_angular_velocity wheel_times ;;
  let wheel_omega := F64.of_Z 2 * math_pi * w in
  b <~ calculate_angular_velocity ball_times ;;
  let ball_omega := F64.of_Z 2 * math_pi * b in
  wheel_alpha <~ calculate_deceleration wheel_times ;;
  ball_alpha <~ calculate_deceleration ball_times ;;

  let wheel_alpha :=
    if wheel_alpha <=? F64.of_Z 0 then f0_1 else wheel_alpha in
  let ball_alpha :=
    if ball_alpha <=? F64.of_Z 0 then f0_1 else ball_alpha in
  let wheel_omega :=
    if wheel_omega <=? F64.of_Z 0 then f1_0 else wheel_omega in
  let ball_omega :=
    if ball_omega <=? F64.of_Z 0 then f2_0 else ball_omega in

  let critical_velocity_squared := G * math_tan_ALPHA * f0_5 in

  t_drop <~
    (if F64.of_Z 0 <? ball_alpha then
       c <~ lift (math_sqrt critical_velocity_squared) ;;
       if c <? ball_omega then
         c' <~ lift (math_sqrt critical_velocity_squared) ;;
         truediv (ball_omega - c') ball_alpha
       else Returns f3_0
     else Returns f3_0) ;;

  let t_drop := if t_drop <? F64.of_Z 0 then f3_0 else t_drop in
  let t_drop := if F64.of_Z 10 <? t_drop then f5_0 else t_drop in

  let theta_ball :=
    ball_omega * t_drop - f0_5 * ball_alpha * t_drop * t_drop in
  let theta_wheel :=
    wheel_omega * t_drop - f0_5 * wheel_alpha * t_drop * t_drop in

  let theta_ball :=
    if negb (F64.isfinite theta_ball)
    then F64.of_Z 2 * math_pi * F64.of_Z 3 else theta_ball in
  let theta_wheel :=
    if negb (F64.isfinite theta_wheel)
    then F64.of_Z 2 * math_pi * F64.of_Z 2 else theta_wheel in

  '(relative_angle, direction_offset) <~
    (if String.eqb wheel_direction "left" then
       r <~ truediv (theta_ball + theta_wheel) (F64.of_Z 2 * math_pi) ;;
       Returns (r, 12%Z)
     else
       r <~ truediv (theta_ball - theta_wheel) (F64.of_Z 2 * math_pi) ;;
       Returns (r, 0%Z)) ;;

  n <~ lift (py_int (F64.abs relative_angle * F64.of_Z 37)) ;;
  let pocket_offset := (n mod 37)%Z in
  let scatter_offset := 5%Z in
  let final_pocket_index :=
    ((pocket_offset + scatter_offset + direction_offset) mod 37)%Z in

  lift (getitem ROULETTE_SEQUENCE final_pocket_index).

Local Close Scope f64_scope.

(** server.py:141-147 *)
Definition compute_predictions (req : MarksRequest)
  : outcome MarksResponse :=
  if (List.length (wheel_times req) <? 2)%nat
     || (List.length (ball_times req) <? 2)%nat
  then Raises (Builtin
                 (ValueError "Not enough marks to compute prediction"))
  else
    left <~ predict_for_direction
              (wheel_times req) (ball_times req) "left" ;;
    right <~ predict_for_direction
               (wheel_times req) (ball_times req) "right" ;;
    Returns {| left_prediction := left; right_prediction := right |}.

(** [HTTPException(status_code, detail)]. *)
Record HTTPException : Type := {
  status_code : Z;
  detail : string
}.

(** [str(e)] for an exception built from its message. *)
Definition str_exn (e : exn) : string :=
  match e with
  | ValueError msg | OverflowError msg | IndexError msg => msg
  end.

(** server.py:178-185: the response, or the HTTP error raised.
    [ValueError] is caught first; every other exception of the program
    is an [Exception]. *)
Definition predict_marks (req : MarksRequest)
  : MarksResponse + HTTPException :=
  match compute_predictions req with
  | Returns resp => inl resp
  | Raises (Builtin (ValueError msg)) =>
      inr {| status_code := 400; detail := str_exn (ValueError msg) |}
  | Raises _ =>
      inr {| status_code := 500; detail := "Prediction failed" |}
  end.

End CheckedProgram.

(** The two HTTP errors of the endpoint. *)
Definition not_enough_marks : CheckedProgram.HTTPException :=
  {| CheckedProgram.status_code := 400;
     CheckedProgram.detail := "Not enough marks to compute prediction" |}.

Definition prediction_failed : CheckedProgram.HTTPException :=
  {| CheckedProgram.status_code := 500;
     CheckedProgram.detail := "Prediction failed" |}.

(** No computed gap of the list is positive: the marks stand still or
    run backwards. *)
Definition stalled (times : list F64.t) : Prop :=
  Forall (fun p => F64.leb (F64.sub (snd p) (fst p)) (F64.of_Z 0) = true)
         (consecutive_pairs times).

(** Zero, with either sign. *)
Definition is_zero (x : F64.t) : bool :=
  match x with S754_zero _ => true | _ => false end.

(** The sign bit of a number is [s]; NaN has none. *)
Definition has_sign (s : bool) (x : F64.t) : bool :=
  match x with
  | S754_zero s' | S754_infinity s' | S754_finite s' _ _ => Bool.eqb s s'
  | S754_nan => true
  end.

(** The samples [calculate_deceleration] builds: one for each
    consecutive pair it does not skip, in order. *)
Definition kept_samples (times : list F64.t) : list (F64.t * F64.t) :=
  map sample_of (filter kept (consecutive_pairs times)).

(* ===================================================================== *)
(** * Facts on binary64 arithmetic *)
(* ===================================================================== *)

(** Away from NaN, [x <= 0] fails exactly when [0 < x] holds. *)
Lemma leb_zero_ltb (x : F64.t) :
  F64.is_nan x = false ->
  F64.leb x (F64.of_Z 0) = negb (F64.ltb (F64.of_Z 0) x).
Proof.
  destruct x as [s | s | | s m e]; try destruct s; intros H;
    try reflexivity; discriminate.
Qed.

Section Rounding.

Lemma shr_1_nonneg (mrs : shr_record) :
  0 <= shr_m mrs -> 0 <= shr_m (shr_1 mrs).
Proof.
  destruct mrs as [m r s]. simpl.
  destruct m as [| [p | p |] | p]; simpl; lia.
Qed.

Lemma iter_shr_1_nonneg (p : positive) :
  forall mrs, 0 <= shr_m mrs -> 0 <= shr_m (iter_pos shr_1 p mrs).
Proof.
  induction p as [p IH | p IH |]; intros mrs H; simpl.
  - apply IH, IH, shr_1_nonneg, H.
  - apply IH, IH, H.
  - apply shr_1_nonneg, H.
Qed.

Lemma shr_record_of_loc_m (m : Z) (l : location) :
  shr_m (shr_record_of_loc m l) = m.
Proof. destruct l as [| []]; reflexivity. Qed.

Lemma shr_fexp_nonneg (m e : Z) (l : location) :
  0 <= m -> 0 <= shr_m (fst (shr_fexp prec emax m e l)).
Proof.
  intros Hm. unfold shr_fexp, shr.
  destruct (fexp prec emax (Zdigits2 m + e) - e) as [| n | n]; simpl;
    try (rewrite shr_record_of_loc_m; exact Hm).
  apply iter_shr_1_nonneg. rewrite shr_record_of_loc_m. exact Hm.
Qed.

Lemma round_nearest_even_nonneg (m : Z) (l : location) :
  0 <= m -> 0 <= round_nearest_even m l.
Proof.
  intros Hm. destruct l as [| []]; simpl; try lia.
  destruct (Z.even m); lia.
Qed.

(** Rounding a non-negative mantissa never produces NaN. *)
Lemma binary_round_aux_not_nan (s : bool) (m e : Z) (l : location) :
  0 <= m -> F64.is_nan (binary_round_aux prec emax s m e l) = false.
Proof.
  intros Hm. unfold binary_round_aux.
  pose proof (shr_fexp_nonneg m e l Hm) as H1.
  destruct (shr_fexp prec emax m e l) as [mrs' e']. simpl in H1.
  pose proof (shr_fexp_nonneg _ e' loc_Exact
                (round_nearest_even_nonneg _ (loc_of_shr_record mrs') H1)) as H2.
  destruct (shr_fexp prec emax _ e' loc_Exact) as [mrs'' e'']. simpl in H2.
  destruct (shr_m mrs'') as [| q | q]; try reflexivity.
  - destruct (e'' <=? emax - prec); reflexivity.
  - lia.
Qed.

(** Rounding keeps the sign it is given. *)
Lemma binary_round_aux_sign (m e : Z) (l : location) :
  F64.nonneg_sign (binary_round_aux prec emax false m e l) = true.
Proof.
  unfold binary_round_aux.
  destruct (shr_fexp prec emax m e l) as [mrs' e'].
  destruct (shr_fexp prec emax _ e' loc_Exact) as [mrs'' e''].
  destruct (shr_m mrs'') as [| q | q]; try reflexivity.
  destruct (e'' <=? emax - prec); reflexivity.
Qed.

Lemma binary_normalize_not_nan (m e : Z) (szero : bool) :
  F64.is_nan (binary_normalize prec emax m e szero) = false.
Proof.
  unfold binary_normalize, binary_round.
  destruct m as [| p | p]; try reflexivity;
    destruct (shl_align _ _ _) as [mz ez];
    apply binary_round_aux_not_nan; lia.
Qed.

(** The difference of two finite floats is a number: finite, or an
    infinity by overflow. *)
Lemma sub_finite_not_nan (x y : F64.t) :
  F64.isfinite x = true -> F64.isfinite y = true ->
  F64.is_nan (F64.sub x y) = false.
Proof.
  destruct x as [sx | sx | | sx mx ex]; try discriminate;
    destruct y as [sy | sy | | sy my ey]; try discriminate; intros _ _;
    try reflexivity.
  - destruct sx, sy; reflexivity.
  - apply binary_normalize_not_nan.
Qed.

(** The integer part of a float whose sign bit is clear is its floor. *)
Lemma trunc_floor (x : F64.t) :
  F64.nonneg_sign x = true -> F64.trunc x = F64.floor x.
Proof.
  destruct x as [s | s | | [] m e]; try reflexivity. discriminate.
Qed.

(** A magnitude times a positive finite number has its sign bit
    clear. *)
Lemma abs_mul_sign (x : F64.t) (m : positive) (e : Z) :
  F64.nonneg_sign (F64.mul (F64.abs x) (S754_finite false m e)) = true.
Proof.
  destruct x as [sx | sx | | sx mx ex]; try reflexivity.
  apply binary_round_aux_sign.
Qed.

Lemma abs_mul_37_sign (x : F64.t) :
  F64.nonneg_sign (F64.mul (F64.abs x) (F64.of_Z 37)) = true.
Proof. apply abs_mul_sign. Qed.

End Rounding.

(** ** Division by one is exact *)

Lemma div_eucl_mul (a b : Z) : 0 < b -> Z.div_eucl (a * b) b = (a, 0).
Proof.
  intros Hb.
  pose proof (Z.div_mul a b ltac:(lia)) as Hq.
  pose proof (Z.mod_mul a b ltac:(lia)) as Hr.
  unfold Z.div, Z.modulo in Hq, Hr.
  destruct (Z.div_eucl (a * b) b) as [q r]. simpl in *. congruence.
Qed.

Lemma round_exact (s : bool) (m : positive) (e : Z) :
  bounded prec emax m e = true ->
  binary_round_aux prec emax s (Z.pos m) e loc_Exact = S754_finite s m e.
Proof.
  unfold bounded, canonical_mantissa. intros H.
  apply andb_prop in H as [Hc He]. apply Z.eqb_eq in Hc.
  unfold binary_round_aux, shr_fexp. cbn [Zdigits2].
  rewrite Hc, Z.sub_diag. cbn [shr shr_record_of_loc shr_m loc_of_shr_record round_nearest_even Zdigits2].
  rewrite Hc, Z.sub_diag. cbn [shr shr_record_of_loc shr_m].
  rewrite He. reflexivity.
Qed.

Lemma round_exact_double (s : bool) (m : positive) (e : Z) :
  bounded prec emax m e = true ->
  Z.pos (digits2_pos m) = prec ->
  binary_round_aux prec emax s (Z.pos m~0) (e - 1) loc_Exact = S754_finite s m e.
Proof.
  intros H Hd. pose proof H as H'. unfold bounded, canonical_mantissa in H.
  apply andb_prop in H as [Hc He]. apply Z.eqb_eq in Hc.
  assert (Hs : fexp prec emax (Zdigits2 (Z.pos m~0) + (e - 1)) - (e - 1) = 1).
  { cbn [Zdigits2 digits2_pos]. rewrite Pos2Z.inj_succ.
    unfold fexp, SpecFloat.emin, prec, emax in *. lia. }
  unfold binary_round_aux at 1. unfold shr_fexp at 1. rewrite Hs.
  cbn [shr shr_record_of_loc iter_pos shr_1 loc_of_shr_record shr_m round_nearest_even].
  replace (e - 1 + 1) with e by lia.
  cbn [orb]. unfold shr_fexp. cbn [Zdigits2 round_nearest_even].
  rewrite Hc, Z.sub_diag. cbn [shr shr_record_of_loc shr_m].
  rewrite He. reflexivity.
Qed.

Lemma div_one_finite (s : bool) (m : positive) (e : Z) :
  bounded prec emax m e = true ->
  F64.div (S754_finite s m e) f1_0 = S754_finite s m e.
Proof.
  intros H. pose proof H as H'. unfold bounded, canonical_mantissa in H.
  apply andb_prop in H as [Hc He]. apply Z.eqb_eq in Hc. apply Z.leb_le in He.
  unfold F64.div, f1_0, SFdiv, SFdiv_core_binary.
  rewrite xorb_false_r.
  change (Zdigits2 (Z.pos 4503599627370496)) with 53.
  cbn [Zdigits2].
  set (d := Z.pos (digits2_pos m)) in *.
  assert (Hd : 0 < d) by (unfold d; lia).
  assert (Hcases :
    Z.min (fexp prec emax (d + e - (53 + -52))) (e - -52) = e \/
    (Z.min (fexp prec emax (d + e - (53 + -52))) (e - -52) = e - 1 /\ d = prec)).
  { unfold fexp, SpecFloat.emin, prec, emax in *. lia. }
  change 4503599627370496 with (2 ^ 52).
  destruct Hcases as [E | [E Hp]]; rewrite E.
  - replace (e - -52 - e) with 52 by lia.
    rewrite Z.shiftl_mul_pow2 by lia.
    rewrite (div_eucl_mul (Z.pos m) (2 ^ 52)) by lia.
    change (new_location (2 ^ 52) 0) with loc_Exact.
    apply round_exact, H'.
  - replace (e - -52 - (e - 1)) with 53 by lia.
    rewrite Z.shiftl_mul_pow2 by lia.
    replace (Z.pos m * 2 ^ 53) with (Z.pos m~0 * 2 ^ 52) by lia.
    rewrite (div_eucl_mul (Z.pos m~0) (2 ^ 52)) by lia.
    change (new_location (2 ^ 52) 0) with loc_Exact.
    apply round_exact_double; [exact H' | exact Hp].
Qed.

Lemma div_one (x : F64.t) :
  valid_binary prec emax x = true -> F64.div x f1_0 = x.
Proof.
  destruct x as [s | s | | s m e]; intros H.
  - destruct s; reflexivity.
  - destruct s; reflexivity.
  - reflexivity.
  - apply div_one_finite, H.
Qed.

(** ** Operations that cannot produce NaN *)

Lemma add_finite_not_nan (x y : F64.t) :
  F64.isfinite x = true -> F64.isfinite y = true ->
  F64.is_nan (F64.add x y) = false.
Proof.
  destruct x as [sx | sx | | sx mx ex]; try discriminate;
    destruct y as [sy | sy | | sy my ey]; try discriminate; intros _ _;
    try reflexivity.
  - destruct sx, sy; reflexivity.
  - apply binary_normalize_not_nan.
Qed.

Lemma div_core_nonneg (m1 m2 : positive) (e1 e2 : Z) :
  0 <= fst (fst (SFdiv_core_binary prec emax (Z.pos m1) e1 (Z.pos m2) e2)).
Proof.
  unfold SFdiv_core_binary.
  set (s := _ - _ - _).
  set (m' := match s with Z.pos _ => Z.shiftl (Z.pos m1) s
                     | 0 => Z.pos m1 | Z.neg _ => 0 end).
  assert (Hm' : 0 <= m').
  { unfold m'. destruct s; try lia. apply Z.shiftl_nonneg. lia. }
  pose proof (Z.div_pos m' (Z.pos m2) Hm' ltac:(lia)) as Hq.
  unfold Z.div in Hq.
  destruct (Z.div_eucl m' (Z.pos m2)) as [q r]. exact Hq.
Qed.

(** A number divided by a finite non-zero float is a number. *)
Lemma div_finite_not_nan (x : F64.t) (s : bool) (m : positive) (e : Z) :
  F64.is_nan x = false ->
  F64.is_nan (F64.div x (S754_finite s m e)) = false.
Proof.
  destruct x as [sx | sx | | sx mx ex]; try discriminate; intros _;
    try reflexivity.
  unfold F64.div, SFdiv.
  pose proof (div_core_nonneg mx m ex e) as H.
  destruct (SFdiv_core_binary prec emax (Z.pos mx) ex (Z.pos m) e)
    as [[mz ez] lz].
  apply binary_round_aux_not_nan. exact H.
Qed.

(** A number times a finite non-zero float is a number. *)
Lemma mul_finite_not_nan (x : F64.t) (s : bool) (m : positive) (e : Z) :
  F64.is_nan x = false ->
  F64.is_nan (F64.mul x (S754_finite s m e)) = false.
Proof.
  destruct x as [sx | sx | | sx mx ex]; try discriminate; intros _;
    try reflexivity.
  apply binary_round_aux_not_nan. lia.
Qed.

Lemma abs_not_nan (x : F64.t) :
  F64.is_nan x = false -> F64.is_nan (F64.abs x) = false.
Proof. destruct x; intros H; try reflexivity. discriminate. Qed.

(* ===================================================================== *)
(** * The index loops, read as traversals of consecutive pairs *)
(* ===================================================================== *)

Section IndexLoops.

Lemma range1_cons (a b : F64.t) (rest : list F64.t) :
  range1 (a :: b :: rest) = 1%nat :: map S (range1 (b :: rest)).
Proof.
  unfold range1. cbn [List.length].
  replace (S (S (List.length rest)) - 1)%nat with (S (List.length rest))
    by lia.
  replace (S (List.length rest) - 1)%nat with (List.length rest) by lia.
  rewrite seq_shift. reflexivity.
Qed.

(** [for i in range(1, len(times))] visits the consecutive pairs in
    order, and every index it uses is a position of the list. *)
Lemma range1_pairs (times : list F64.t) :
  map (pair_at times) (range1 times) = consecutive_pairs times.
Proof.
  induction times as [| a [| b rest] IH]; try reflexivity.
  rewrite range1_cons.
  change (consecutive_pairs (a :: b :: rest))
    with ((a, b) :: consecutive_pairs (b :: rest)).
  cbn [map]. f_equal.
  rewrite <- IH, map_map. apply map_ext_in.
  intros i Hi. apply in_seq in Hi.
  destruct i as [| j]; [lia |].
  unfold pair_at, at_index. simpl. rewrite Nat.sub_0_r. reflexivity.
Qed.

Lemma range1_in_bounds (times : list F64.t) (i : nat) :
  In i (range1 times) ->
  (i - 1 < List.length times)%nat /\ (i < List.length times)%nat.
Proof. unfold range1. intros H. apply in_seq in H. lia. Qed.

Lemma consecutive_pairs_length (times : list F64.t) :
  List.length (consecutive_pairs times) = (List.length times - 1)%nat.
Proof.
  rewrite <- range1_pairs, length_map. unfold range1. apply length_seq.
Qed.

(** server.py:53 *)
Lemma periods_eq (times : list F64.t) :
  map (fun i => F64.sub (at_index times i) (at_index times (i - 1)))
      (range1 times)
  = successive_differences times.
Proof.
  unfold successive_differences. rewrite <- range1_pairs, map_map.
  reflexivity.
Qed.

Lemma deceleration_loop_pairs (times : list F64.t) (idx : list nat) :
  forall acc,
    fold_left (deceleration_step times) idx acc
    = fold_left deceleration_step_pair (map (pair_at times) idx) acc.
Proof.
  induction idx as [| i idx IH]; intros acc; [reflexivity |].
  cbn [fold_left map]. rewrite IH. f_equal.
  destruct acc as [velocities time_points].
  unfold deceleration_step, deceleration_step_pair, pair_at. cbn [fst snd].
  destruct (F64.leb _ _); reflexivity.
Qed.

Lemma deceleration_loop_filter (ps : list (F64.t * F64.t)) :
  forall acc,
    fold_left deceleration_step_pair ps acc
    = (fst acc ++ map snd (map sample_of (filter kept ps)),
       snd acc ++ map fst (map sample_of (filter kept ps))).
Proof.
  induction ps as [| p ps IH]; intros [velocities time_points].
  - cbn. rewrite !app_nil_r. reflexivity.
  - cbn [fold_left filter]. rewrite IH.
    unfold deceleration_step_pair. fold (kept p).
    assert (Hk : F64.leb (F64.sub (snd p) (fst p)) (F64.of_Z 0)
                 = negb (kept p))
      by (unfold kept; rewrite negb_involutive; reflexivity).
    rewrite Hk.
    destruct (kept p); cbn [negb fst snd map]; [| reflexivity].
    rewrite <- !app_assoc. reflexivity.
Qed.

(** On finite timestamps a gap is a number, and the loop keeps the
    pairs with a positive gap. *)
Lemma kept_positive_gap (p : F64.t * F64.t) :
  F64.isfinite (fst p) = true -> F64.isfinite (snd p) = true ->
  kept p = positive_gap p.
Proof.
  intros Ha Hb. unfold kept, positive_gap.
  rewrite leb_zero_ltb by (apply sub_finite_not_nan; assumption).
  apply negb_involutive.
Qed.

Lemma consecutive_pairs_finite (times : list F64.t) :
  finite_times times ->
  Forall (fun p => F64.isfinite (fst p) = true /\ F64.isfinite (snd p) = true)
         (consecutive_pairs times).
Proof.
  unfold finite_times.
  induction times as [| a [| b rest] IH]; intros H; try constructor.
  - inversion H as [| ? ? Ha H']; subst. inversion H'; subst. split; assumption.
  - apply IH. inversion H; assumption.
Qed.

Lemma filter_kept_positive_gap (times : list F64.t) :
  finite_times times ->
  filter kept (consecutive_pairs times)
  = filter positive_gap (consecutive_pairs times).
Proof.
  intros H. apply consecutive_pairs_finite in H.
  induction H as [| p ps [Ha Hb] _ IH]; [reflexivity |].
  cbn [filter]. rewrite IH, (kept_positive_gap p Ha Hb). reflexivity.
Qed.

Lemma samples_sample_of (times : list F64.t) :
  samples times
  = map sample_of (filter positive_gap (consecutive_pairs times)).
Proof.
  unfold samples. apply map_ext. intros [a b]. reflexivity.
Qed.

Lemma combine_fst_snd {A B : Type} (l : list (A * B)) :
  combine (map fst l) (map snd l) = l.
Proof.
  induction l as [| [a b] l IH]; [reflexivity |].
  cbn. rewrite IH. reflexivity.
Qed.

End IndexLoops.

(* ===================================================================== *)
(** * The helpers: velocity and deceleration *)
(* ===================================================================== *)

Lemma calculate_angular_velocity_unfold (times : list F64.t) :
  calculate_angular_velocity times
  = if (List.length times <? 2)%nat then f0_0
    else if F64.ltb (F64.of_Z 0) (average (successive_differences times))
         then F64.div f1_0 (average (successive_differences times))
         else f0_0.
Proof.
  unfold calculate_angular_velocity, average.
  rewrite periods_eq. reflexivity.
Qed.

(** C5: on fewer than two timestamps the velocity is 0.0; on two or more
    it is the reciprocal of the average of the successive differences
    when that average is positive, and 0.0 when it is not; the caller
    multiplies the result by 2 pi. *)
Theorem calculate_angular_velocity_spec :
  (forall times,
      (List.length times < 2)%nat ->
      calculate_angular_velocity times = f0_0) /\
  (forall times,
      (2 <= List.length times)%nat ->
      F64.ltb (F64.of_Z 0) (average (successive_differences times)) = true ->
      calculate_angular_velocity times
      = F64.div f1_0 (average (successive_differences times))) /\
  (forall times,
      (2 <= List.length times)%nat ->
      F64.ltb (F64.of_Z 0) (average (successive_differences times)) = false ->
      calculate_angular_velocity times = f0_0) /\
  (forall wheel ball,
      wheel_omega (raw_estimates wheel ball)
      = F64.mul (F64.mul (F64.of_Z 2) math_pi)
                (calculate_angular_velocity wheel) /\
      ball_omega (raw_estimates wheel ball)
      = F64.mul (F64.mul (F64.of_Z 2) math_pi)
                (calculate_angular_velocity ball)).
Proof.
  repeat split.
  - intros times H. rewrite calculate_angular_velocity_unfold.
    apply Nat.ltb_lt in H. rewrite H. reflexivity.
  - intros times H Havg. rewrite calculate_angular_velocity_unfold.
    apply Nat.ltb_ge in H. rewrite H, Havg. reflexivity.
  - intros times H Havg. rewrite calculate_angular_velocity_unfold.
    apply Nat.ltb_ge in H. rewrite H, Havg. reflexivity.
Qed.

Lemma calculate_angular_velocity_spec_witness :
  calculate_angular_velocity [] = f0_0 /\
  calculate_angular_velocity Samples.wheel_example
  = F64.div f1_0 (average (successive_differences Samples.wheel_example)) /\
  calculate_angular_velocity [f1_0; f1_0] = f0_0.
Proof.
  destruct calculate_angular_velocity_spec as (H1 & H2 & H3 & _).
  split; [| split].
  - apply H1. simpl. lia.
  - apply H2; [simpl; lia | vm_compute; reflexivity].
  - apply H3; [simpl; lia | vm_compute; reflexivity].
Defined.

(** The loop of [calculate_deceleration] leaves in [velocities] and
    [time_points] the two coordinates of the samples of the kept
    pairs. *)
Lemma deceleration_loop (times : list F64.t) :
  fold_left (deceleration_step times) (range1 times) ([], [])
  = (map snd (map sample_of (filter kept (consecutive_pairs times))),
     map fst (map sample_of (filter kept (consecutive_pairs times)))).
Proof.
  rewrite deceleration_loop_pairs, range1_pairs, deceleration_loop_filter.
  reflexivity.
Qed.

Lemma calculate_deceleration_kept (times : list F64.t) :
  calculate_deceleration times
  = if (List.length times <? 3)%nat then f0_0
    else regression (map sample_of (filter kept (consecutive_pairs times))).
Proof.
  unfold calculate_deceleration. rewrite deceleration_loop.
  destruct (List.length times <? 3)%nat; [reflexivity |].
  set (pts := map sample_of _).
  unfold regression, ols_slope, ols_denominator.
  rewrite !length_map, combine_fst_snd, (map_map fst).
  replace (map (fun '(x, v) => F64.mul x v) pts)
    with (map (fun p => F64.mul (fst p) (snd p)) pts)
    by (apply map_ext; intros [x v]; reflexivity).
  reflexivity.
Qed.

(** On finite timestamps, [calculate_deceleration] is 0.0 for fewer
    than three timestamps, 0.0 for fewer than two samples taken from the
    consecutive pairs with a positive gap, 0.0 when the denominator
    [n Sxx - Sx^2] of the regression of these samples is zero, and the
    negated least-squares slope of velocity against time otherwise. *)
Theorem calculate_deceleration_spec (times : list F64.t) :
  finite_times times ->
  calculate_deceleration times
  = if (List.length times <? 3)%nat then f0_0
    else if (List.length (samples times) <? 2)%nat then f0_0
    else if F64.eqb (ols_denominator (samples times)) (F64.of_Z 0) then f0_0
    else F64.neg (ols_slope (samples times)).
Proof.
  intros Hfin.
  rewrite calculate_deceleration_kept, filter_kept_positive_gap by exact Hfin.
  rewrite <- samples_sample_of. reflexivity.
Qed.

Lemma calculate_deceleration_spec_witness :
  finite_times Samples.ball_example /\
  calculate_deceleration Samples.ball_example
  = F64.neg (ols_slope (samples Samples.ball_example)).
Proof.
  assert (H : finite_times Samples.ball_example) by (repeat constructor).
  split; [exact H |].
  rewrite (calculate_deceleration_spec Samples.ball_example H).
  vm_compute. reflexivity.
Defined.

(** The loop keeps a pair exactly when its gap is positive or NaN. *)
Lemma kept_positive_or_nan (p : F64.t * F64.t) :
  kept p = positive_gap p || F64.is_nan (F64.sub (snd p) (fst p)).
Proof.
  unfold kept, positive_gap.
  destruct (F64.is_nan (F64.sub (snd p) (fst p))) eqn:Hnan.
  - destruct (F64.sub (snd p) (fst p)); try discriminate. reflexivity.
  - rewrite (leb_zero_ltb _ Hnan), negb_involutive, orb_false_r.
    reflexivity.
Qed.

(** C6, as the program has it: [calculate_deceleration] builds one
    sample, midpoint time and velocity [2 pi / dt], for each consecutive
    pair whose gap [dt] is not [<= 0], that is whose gap is positive or
    NaN; it is 0.0 for fewer than three timestamps, 0.0 for fewer than
    two such samples, 0.0 when the denominator [n Sxx - Sx^2] of their
    regression is zero, and the negated least-squares slope otherwise.
    On finite timestamps no gap is NaN and the samples are those of the
    pairs with a positive gap. *)
Theorem calculate_deceleration_not_skipped :
  (forall times,
      calculate_deceleration times
      = if (List.length times <? 3)%nat then f0_0
        else if (List.length (kept_samples times) <? 2)%nat then f0_0
        else if F64.eqb (ols_denominator (kept_samples times)) (F64.of_Z 0)
             then f0_0
        else F64.neg (ols_slope (kept_samples times))) /\
  (forall p,
      kept p = positive_gap p || F64.is_nan (F64.sub (snd p) (fst p))) /\
  (forall times, finite_times times -> kept_samples times = samples times).
Proof.
  split; [| split].
  - intros times. rewrite calculate_deceleration_kept. reflexivity.
  - apply kept_positive_or_nan.
  - intros times Hfin. unfold kept_samples.
    rewrite filter_kept_positive_gap by exact Hfin.
    symmetry. apply samples_sample_of.
Qed.

Lemma calculate_deceleration_not_skipped_witness :
  finite_times Samples.ball_example /\
  kept_samples Samples.ball_example = samples Samples.ball_example /\
  calculate_deceleration Samples.ball_example
  = F64.neg (ols_slope (kept_samples Samples.ball_example)).
Proof.
  destruct calculate_deceleration_not_skipped as (Hcode & _ & Hfinite).
  assert (H : finite_times Samples.ball_example) by (repeat constructor).
  split; [exact H |].
  split; [exact (Hfinite _ H) |].
  rewrite (Hcode Samples.ball_example). vm_compute. reflexivity.
Defined.

(** C6 fails as stated: in the list 0.0, NaN, 1.0 both gaps are NaN, so
    no pair has a positive gap and the claim gives 0.0; the program does
    not skip a NaN gap, builds two samples and returns NaN. *)
Lemma calculate_deceleration_spec_counterexample :
  (3 <= List.length [f0_0; F64.nan; f1_0])%nat /\
  samples [f0_0; F64.nan; f1_0] = [] /\
  List.length (kept_samples [f0_0; F64.nan; f1_0]) = 2%nat /\
  calculate_deceleration [f0_0; F64.nan; f1_0] = F64.nan /\
  calculate_deceleration [f0_0; F64.nan; f1_0]
  <> (if (List.length [f0_0; F64.nan; f1_0] <? 3)%nat then f0_0
      else if (List.length (samples [f0_0; F64.nan; f1_0]) <? 2)%nat
           then f0_0
      else if F64.eqb (ols_denominator (samples [f0_0; F64.nan; f1_0]))
                      (F64.of_Z 0)
           then f0_0
      else F64.neg (ols_slope (samples [f0_0; F64.nan; f1_0]))).
Proof.
  split; [simpl; lia |].
  split; [vm_compute; reflexivity |].
  split; [vm_compute; reflexivity |].
  split; [vm_compute; reflexivity |].
  vm_compute. discriminate.
Qed.

(** A list of fewer than three timestamps has fewer than two samples. *)
Lemma samples_length (times : list F64.t) :
  (List.length (samples times) <= List.length times - 1)%nat.
Proof.
  unfold samples. rewrite length_map, <- consecutive_pairs_length.
  apply filter_length_le.
Qed.

(** ** Uniformly spaced timestamps *)

Lemma average_singleton (p : F64.t) :
  valid_binary prec emax p = true ->
  F64.ltb (F64.of_Z 0) p = true ->
  average [p] = p.
Proof.
  intros Hv Hp. unfold average, py_sum. cbn [fold_left List.length].
  change (F64.of_nat 1) with f1_0.
  replace (F64.add f0_0 p) with p.
  - apply div_one, Hv.
  - destruct p as [s | s | | s m e]; try discriminate; reflexivity.
Qed.

(** C8, as it holds in binary64: the velocity of timestamps whose
    computed average period is [p > 0] is exactly the quotient
    [1.0 / p]; this is the case of every two timestamps whose computed
    difference is [p]. *)
Theorem calculate_angular_velocity_uniform :
  (forall times p,
      (2 <= List.length times)%nat ->
      average (successive_differences times) = p ->
      F64.ltb (F64.of_Z 0) p = true ->
      calculate_angular_velocity times = F64.div f1_0 p) /\
  (forall t0 t1,
      valid_binary prec emax (F64.sub t1 t0) = true ->
      F64.ltb (F64.of_Z 0) (F64.sub t1 t0) = true ->
      calculate_angular_velocity [t0; t1] = F64.div f1_0 (F64.sub t1 t0)).
Proof.
  assert (H : forall times p,
      (2 <= List.length times)%nat ->
      average (successive_differences times) = p ->
      F64.ltb (F64.of_Z 0) p = true ->
      calculate_angular_velocity times = F64.div f1_0 p).
  { intros times p Hlen Havg Hp.
    rewrite calculate_angular_velocity_unfold.
    apply Nat.ltb_ge in Hlen. rewrite Hlen, Havg, Hp. reflexivity. }
  split; [exact H |].
  intros t0 t1 Hv Hp. apply H; [simpl; lia | | exact Hp].
  apply average_singleton; assumption.
Qed.

Lemma calculate_angular_velocity_uniform_witness :
  calculate_angular_velocity Samples.wheel_example
  = F64.div f1_0 f0_5 /\
  calculate_angular_velocity Samples.ball_fast
  = F64.div f1_0 (S754_finite false 5313059149316904 (-1071)).
Proof.
  split.
  - apply (proj1 calculate_angular_velocity_uniform);
      [simpl; lia | vm_compute; reflexivity | vm_compute; reflexivity].
  - apply (proj2 calculate_angular_velocity_uniform
             (S754_zero false) (S754_finite false 5313059149316904 (-1071)));
      vm_compute; reflexivity.
Defined.

(** C8 fails as stated: the four timestamps -0.1, 0.0, 0.1, 0.2 are
    binary64 numbers spaced by exactly the binary64 number [p] nearest
    to 0.1, yet the velocity is 9.999999999999998 and [1 / p] is
    10.0. *)
Lemma calculate_angular_velocity_uniform_counterexample :
  exists q : Q,
    exact_value f0_1 = Some q /\
    uniformly_spaced q Samples.tenths = true /\
    F64.ltb (F64.of_Z 0) f0_1 = true /\
    (2 <= List.length Samples.tenths)%nat /\
    calculate_angular_velocity Samples.tenths
    = S754_finite false 5629499534213119 (-49) /\
    F64.div f1_0 f0_1 = S754_finite false 5629499534213120 (-49) /\
    calculate_angular_velocity Samples.tenths <> F64.div f1_0 f0_1.
Proof.
  eexists. split; [reflexivity |].
  repeat split; try (vm_compute; reflexivity).
  - simpl. lia.
  - vm_compute. discriminate.
Qed.

(* ===================================================================== *)
(** * The predictor *)
(* ===================================================================== *)

(** ** The function and its stages *)

Lemma predict_for_direction_stages
    (wheel ball : list F64.t) (direction : string) :
  predict_for_direction wheel ball direction
  = ('(theta_ball, theta_wheel) <- travel_angles wheel ball ;;
     let '(relative_angle, direction_offset) :=
       relative direction theta_ball theta_wheel in
     select_pocket relative_angle direction_offset).
Proof.
  unfold predict_for_direction, travel_angles, drop_time, travel, relative,
    select_pocket, final_pocket_index, critical_velocity_squared.
  cbn [raw_estimates floor_defaults wheel_omega ball_omega wheel_alpha
       ball_alpha].
  destruct (F64.ltb (F64.of_Z 0) _); cbn [bind].
  - destruct (math_sqrt _) as [c |]; cbn [bind]; [| reflexivity].
    destruct (F64.ltb c _); cbn [bind].
    + destruct (String.eqb direction "left");
        destruct (py_int _); reflexivity.
    + destruct (String.eqb direction "left");
        destruct (py_int _); reflexivity.
  - destruct (String.eqb direction "left");
      destruct (py_int _); reflexivity.
Qed.

Lemma compute_predictions_erase (req : MarksRequest) :
  fst (compute_predictions_traced req) = compute_predictions req.
Proof.
  unfold compute_predictions_traced, compute_predictions.
  destruct (_ || _); [reflexivity |].
  unfold tbind, call_predict_for_direction, tret. cbn [fst snd].
  destruct (predict_for_direction _ _ "left"); [| reflexivity].
  cbn [bind fst].
  destruct (predict_for_direction _ _ "right"); reflexivity.
Qed.

(** ** Defaults and drop time *)

Lemma math_sqrt_critical_velocity :
  math_sqrt critical_velocity_squared = Ok critical_velocity.
Proof. reflexivity. Qed.

Lemma drop_time_unfold (e : estimates) :
  drop_time e = Ok (drop_time_guarded e).
Proof.
  unfold drop_time, drop_time_guarded, clamp_drop_time.
  rewrite math_sqrt_critical_velocity. cbn [bind].
  destruct (F64.ltb (F64.of_Z 0) (ball_alpha e)); cbn [andb bind];
    [| reflexivity].
  destruct (F64.ltb critical_velocity (ball_omega e)); reflexivity.
Qed.

(** After the defaults the deceleration of the ball is positive, unless
    the estimate was not a number. *)
Lemma floor_defaults_ball_alpha (e : estimates) :
  F64.ltb (F64.of_Z 0) (ball_alpha (floor_defaults e))
  = negb (F64.is_nan (ball_alpha e)).
Proof.
  cbn [floor_defaults ball_alpha].
  destruct (F64.is_nan (ball_alpha e)) eqn:Hnan.
  - destruct (ball_alpha e); try discriminate. reflexivity.
  - rewrite (leb_zero_ltb _ Hnan).
    destruct (F64.ltb (F64.of_Z 0) (ball_alpha e)) eqn:Hpos; cbn [negb];
      [exact Hpos | reflexivity].
Qed.

(** C4, as the program has it: the four defaults are applied first; the
    drop time is the quotient when the deceleration of the ball is
    positive and its velocity exceeds the critical one, 3.0 otherwise,
    then clamped (negative to 3.0, above 10 to 5.0), and the travel
    angles are computed from it.  The guard on the deceleration fails
    only for an estimate that is not a number; apart from that case the
    drop time is the one of the specification. *)
Theorem drop_time_spec_guarded (raw : estimates) :
  let e := floor_defaults raw in
  (wheel_alpha e = if F64.leb (wheel_alpha raw) (F64.of_Z 0)
                   then f0_1 else wheel_alpha raw) /\
  (ball_alpha e = if F64.leb (ball_alpha raw) (F64.of_Z 0)
                  then f0_1 else ball_alpha raw) /\
  (wheel_omega e = if F64.leb (wheel_omega raw) (F64.of_Z 0)
                   then f1_0 else wheel_omega raw) /\
  (ball_omega e = if F64.leb (ball_omega raw) (F64.of_Z 0)
                  then f2_0 else ball_omega raw) /\
  drop_time e = Ok (drop_time_guarded e) /\
  (F64.is_nan (ball_alpha raw) = false ->
   drop_time e = Ok (drop_time_spec e)) /\
  (F64.is_nan (ball_alpha raw) = true -> drop_time e = Ok f3_0) /\
  (forall wheel ball,
      raw = raw_estimates wheel ball ->
      travel_angles wheel ball = Ok (travel e (drop_time_guarded e))).
Proof.
  intros e. repeat split.
  - apply drop_time_unfold.
  - intros Hnan. rewrite drop_time_unfold. f_equal.
    unfold drop_time_guarded, drop_time_spec, e.
    rewrite floor_defaults_ball_alpha, Hnan. reflexivity.
  - intros Hnan. rewrite drop_time_unfold. f_equal.
    unfold drop_time_guarded, e.
    rewrite floor_defaults_ball_alpha, Hnan. reflexivity.
  - intros wheel ball ->. unfold travel_angles. fold e.
    rewrite drop_time_unfold. reflexivity.
Qed.

Lemma drop_time_spec_guarded_witness :
  let raw := raw_estimates Samples.wheel_example Samples.ball_example in
  F64.is_nan (ball_alpha raw) = false /\
  drop_time (floor_defaults raw) = Ok (drop_time_spec (floor_defaults raw)) /\
  travel_angles Samples.wheel_example Samples.ball_example
  = Ok (travel (floor_defaults raw) (drop_time_guarded (floor_defaults raw))) /\
  let raw' := raw_estimates Samples.wheel_slow Samples.ball_tiny_gap in
  F64.is_nan (ball_alpha raw') = true /\
  drop_time (floor_defaults raw') = Ok f3_0.
Proof.
  intros raw.
  destruct (drop_time_spec_guarded raw) as (_ & _ & _ & _ & _ & H1 & _ & H2).
  assert (Hnan : F64.is_nan (ball_alpha raw) = false)
    by (vm_compute; reflexivity).
  split; [exact Hnan |].
  split; [exact (H1 Hnan) |].
  split; [exact (H2 _ _ eq_refl) |].
  intros raw'.
  destruct (drop_time_spec_guarded raw') as (_ & _ & _ & _ & _ & _ & H3 & _).
  assert (Hnan' : F64.is_nan (ball_alpha raw') = true)
    by (vm_compute; reflexivity).
  split; [exact Hnan' | exact (H3 Hnan')].
Defined.

(** C4 fails as stated: for ball marks at 0.0, 5e-324 and 1.0 the
    deceleration estimate is not a number while the ball is faster than
    the critical velocity; the program takes 3.0 for the drop time, the
    quotient of the specification is not a number. *)
Lemma drop_time_spec_counterexample :
  let e := floor_defaults
             (raw_estimates Samples.wheel_slow Samples.ball_tiny_gap) in
  finite_times Samples.ball_tiny_gap /\
  F64.ltb critical_velocity (ball_omega e) = true /\
  drop_time e = Ok f3_0 /\
  drop_time_spec e = F64.nan /\
  drop_time e <> Ok (drop_time_spec e).
Proof.
  intros e. split; [repeat constructor |].
  repeat split; try (vm_compute; reflexivity).
  vm_compute. discriminate.
Qed.

(* ===================================================================== *)
(** * The pocket sequence *)
(* ===================================================================== *)

Lemma pockets_spec (n : Z) : In n pockets <-> 0 <= n <= 36.
Proof.
  unfold pockets. rewrite in_map_iff. split.
  - intros (k & <- & Hk). apply in_seq in Hk. lia.
  - intros Hn. exists (Z.to_nat n). split; [lia | apply in_seq; lia].
Qed.

(** A property checked on every pocket holds on the range [0, 36]. *)
Lemma forall_pockets (P : Z -> bool) :
  forallb P pockets = true -> forall n, 0 <= n <= 36 -> P n = true.
Proof.
  intros H n Hn. rewrite forallb_forall in H. apply H, pockets_spec, Hn.
Qed.

Lemma final_pocket_index_range (pocket_offset direction_offset : Z) :
  0 <= final_pocket_index pocket_offset direction_offset <= 36.
Proof.
  unfold final_pocket_index.
  pose proof (Z.mod_pos_bound (pocket_offset + 5 + direction_offset) 37).
  lia.
Qed.

Lemma getitem_Ok_In {A : Type} (xs : list A) (i : Z) (x : A) :
  getitem xs i = Ok x -> In x xs.
Proof.
  unfold getitem.
  destruct (_ <? 0); [discriminate |].
  destruct (nth_error xs _) eqn:E; [| discriminate].
  intros [= <-]. eapply nth_error_In, E.
Qed.

(** Inside the sequence the lookup succeeds. *)
Lemma getitem_ROULETTE_SEQUENCE (i : Z) :
  0 <= i <= 36 ->
  getitem ROULETTE_SEQUENCE i = Ok (nth (Z.to_nat i) ROULETTE_SEQUENCE 0).
Proof.
  intros Hi. unfold getitem.
  destruct (i <? 0) eqn:E1; [lia |]. rewrite E1.
  destruct (nth_error ROULETTE_SEQUENCE (Z.to_nat i)) eqn:E.
  - erewrite nth_error_nth by exact E. reflexivity.
  - apply nth_error_None in E. change (List.length ROULETTE_SEQUENCE) with 37%nat in E.
    lia.
Qed.

Lemma select_pocket_In (relative_angle : F64.t) (direction_offset v : Z) :
  select_pocket relative_angle direction_offset = Ok v ->
  In v ROULETTE_SEQUENCE.
Proof.
  unfold select_pocket, bind.
  destruct (py_int _); [| discriminate].
  apply getitem_Ok_In.
Qed.

Lemma predict_for_direction_In
    (wheel ball : list F64.t) (direction : string) (v : Z) :
  predict_for_direction wheel ball direction = Ok v ->
  In v ROULETTE_SEQUENCE.
Proof.
  rewrite predict_for_direction_stages. unfold bind.
  destruct (travel_angles wheel ball) as [[theta_ball theta_wheel] |];
    [| discriminate].
  destruct (relative direction theta_ball theta_wheel).
  apply select_pocket_In.
Qed.

(** ** Pocket selection *)

(** [int] of a number is its integer part, or an overflow at infinity. *)
Lemma py_int_outcome (x : F64.t) :
  F64.is_nan x = false ->
  (exists n, F64.trunc x = Some n /\ py_int x = Ok n) \/
  (F64.isfinite x = false /\
   py_int x = Raise (OverflowError "cannot convert float infinity to integer")).
Proof.
  destruct x as [s | s | | s m e]; try discriminate; intros _.
  - left. eexists. split; reflexivity.
  - right. split; reflexivity.
  - left. eexists. split; reflexivity.
Qed.

Lemma py_int_floor (x : F64.t) (k : Z) :
  F64.nonneg_sign x = true -> F64.floor x = Some k -> py_int x = Ok k.
Proof.
  intros Hs Hk. rewrite <- (trunc_floor x Hs) in Hk.
  unfold py_int. rewrite Hk. reflexivity.
Qed.

Lemma select_pocket_floor (relative_angle : F64.t) (direction_offset k : Z) :
  F64.floor (F64.mul (F64.abs relative_angle) (F64.of_Z 37)) = Some k ->
  select_pocket relative_angle direction_offset
  = Ok (nth (Z.to_nat ((k mod 37 + 5 + direction_offset) mod 37))
            ROULETTE_SEQUENCE 0).
Proof.
  intros Hk. unfold select_pocket.
  rewrite (py_int_floor _ k (abs_mul_37_sign relative_angle) Hk).
  cbn [bind].
  apply (getitem_ROULETTE_SEQUENCE
           (final_pocket_index (k mod 37) direction_offset)).
  apply final_pocket_index_range.
Qed.

(** C7: with the travel angles [theta_ball] and [theta_wheel], direction
    "left" takes [(theta_ball + theta_wheel) / 2 pi] and the offset 12,
    direction "right" takes [(theta_ball - theta_wheel) / 2 pi] and the
    offset 0, and the value returned is the entry of the pocket sequence
    at [(floor (|relative| * 37) mod 37 + 5 + offset) mod 37]. *)
Theorem predict_for_direction_pocket
    (wheel ball : list F64.t) (theta_ball theta_wheel : F64.t) :
  travel_angles wheel ball = Ok (theta_ball, theta_wheel) ->
  (forall k,
      F64.floor
        (F64.mul
           (F64.abs (F64.div (F64.add theta_ball theta_wheel)
                             (F64.mul (F64.of_Z 2) math_pi)))
           (F64.of_Z 37)) = Some k ->
      predict_for_direction wheel ball "left"
      = Ok (nth (Z.to_nat ((k mod 37 + 5 + 12) mod 37)) ROULETTE_SEQUENCE 0))
  /\
  (forall k,
      F64.floor
        (F64.mul
           (F64.abs (F64.div (F64.sub theta_ball theta_wheel)
                             (F64.mul (F64.of_Z 2) math_pi)))
           (F64.of_Z 37)) = Some k ->
      predict_for_direction wheel ball "right"
      = Ok (nth (Z.to_nat ((k mod 37 + 5 + 0) mod 37)) ROULETTE_SEQUENCE 0)).
Proof.
  intros Hangles. split; intros k Hk; rewrite predict_for_direction_stages;
    rewrite Hangles; cbn [bind relative String.eqb Ascii.eqb Bool.eqb];
    apply select_pocket_floor, Hk.
Qed.

Lemma predict_for_direction_pocket_witness :
  predict_for_direction Samples.wheel_example Samples.ball_example "left"
  = Ok 18 /\
  predict_for_direction Samples.wheel_example Samples.ball_example "right"
  = Ok 20.
Proof.
  assert (Hangles :
    travel_angles Samples.wheel_example Samples.ball_example
    = Ok (S754_finite false 5194100599147393 (-48),
          S754_finite false 4942865863060345 (-49)))
    by (vm_compute; reflexivity).
  destruct (predict_for_direction_pocket _ _ _ _ Hangles) as [Hl Hr].
  split.
  - apply (Hl 160). vm_compute. reflexivity.
  - apply (Hr 56). vm_compute. reflexivity.
Defined.

(** ** What [predict_for_direction] can do *)

Lemma travel_finite (e : estimates) (t_drop : F64.t) :
  F64.isfinite (fst (travel e t_drop)) = true /\
  F64.isfinite (snd (travel e t_drop)) = true.
Proof.
  unfold travel. cbn [fst snd]. split.
  - destruct (F64.isfinite (F64.sub (F64.mul (ball_omega e) t_drop) _)) eqn:E;
      cbn [negb]; [exact E | reflexivity].
  - destruct (F64.isfinite (F64.sub (F64.mul (wheel_omega e) t_drop) _)) eqn:E;
      cbn [negb]; [exact E | reflexivity].
Qed.

Lemma travel_angles_total (wheel ball : list F64.t) :
  exists theta_ball theta_wheel,
    travel_angles wheel ball = Ok (theta_ball, theta_wheel) /\
    F64.isfinite theta_ball = true /\ F64.isfinite theta_wheel = true.
Proof.
  unfold travel_angles. rewrite drop_time_unfold. cbn [bind].
  set (e := floor_defaults _). set (t := drop_time_guarded e).
  destruct (travel_finite e t) as [Hb Hw].
  destruct (travel e t) as [theta_ball theta_wheel].
  exists theta_ball, theta_wheel. auto.
Qed.

(** The relative angle is a number. *)
Lemma relative_not_nan (direction : string) (theta_ball theta_wheel : F64.t) :
  F64.isfinite theta_ball = true -> F64.isfinite theta_wheel = true ->
  F64.is_nan (fst (relative direction theta_ball theta_wheel)) = false.
Proof.
  intros Hb Hw. unfold relative.
  destruct (String.eqb direction "left"); cbn [fst];
    apply div_finite_not_nan;
    [apply add_finite_not_nan | apply sub_finite_not_nan]; assumption.
Qed.

(** [select_pocket] on a number returns a pocket of the sequence, or
    fails on the overflow of [|relative| * 37]. *)
Lemma select_pocket_outcome (relative_angle : F64.t) (direction_offset : Z) :
  F64.is_nan relative_angle = false ->
  (exists v, select_pocket relative_angle direction_offset = Ok v /\
             In v ROULETTE_SEQUENCE) \/
  (F64.isfinite (F64.mul (F64.abs relative_angle) (F64.of_Z 37)) = false /\
   select_pocket relative_angle direction_offset
   = Raise (OverflowError "cannot convert float infinity to integer")).
Proof.
  intros Hnan. unfold select_pocket.
  destruct (py_int_outcome (F64.mul (F64.abs relative_angle) (F64.of_Z 37)))
    as [(n & _ & Hn) | [Hinf Hn]].
  - apply mul_finite_not_nan, abs_not_nan, Hnan.
  - left. rewrite Hn. cbn [bind].
    rewrite getitem_ROULETTE_SEQUENCE by apply final_pocket_index_range.
    eexists. split; [reflexivity |].
    apply nth_In. change (List.length ROULETTE_SEQUENCE) with 37%nat.
    pose proof (final_pocket_index_range (n mod 37) direction_offset). lia.
  - right. rewrite Hn. split; [exact Hinf | reflexivity].
Qed.

(** The only exception of [predict_for_direction] is the overflow of
    [int] at infinity; every value it returns is a pocket. *)
Lemma predict_for_direction_outcome
    (wheel ball : list F64.t) (direction : string) :
  (exists v, predict_for_direction wheel ball direction = Ok v /\
             In v ROULETTE_SEQUENCE) \/
  predict_for_direction wheel ball direction
  = Raise (OverflowError "cannot convert float infinity to integer").
Proof.
  rewrite predict_for_direction_stages.
  destruct (travel_angles_total wheel ball)
    as (theta_ball & theta_wheel & -> & Hb & Hw).
  cbn [bind].
  pose proof (relative_not_nan direction _ _ Hb Hw) as Hnan.
  destruct (relative direction theta_ball theta_wheel)
    as [relative_angle direction_offset].
  destruct (select_pocket_outcome relative_angle direction_offset Hnan)
    as [H | [_ H]]; [left | right]; exact H.
Qed.

(** ** [compute_predictions] *)

Lemma compute_predictions_traced_insufficient (req : MarksRequest) :
  ~ sufficient req ->
  compute_predictions_traced req
  = (Raise (ValueError "Not enough marks to compute prediction"), []).
Proof.
  unfold sufficient, compute_predictions_traced. intros H.
  destruct (List.length (wheel_times req) <? 2)%nat eqn:Ew;
    [reflexivity |].
  destruct (List.length (ball_times req) <? 2)%nat eqn:Eb;
    [reflexivity |].
  apply Nat.ltb_ge in Ew, Eb. tauto.
Qed.

Lemma compute_predictions_traced_sufficient (req : MarksRequest) :
  sufficient req ->
  compute_predictions_traced req
  = match predict_for_direction (wheel_times req) (ball_times req) "left" with
    | Raise e => (Raise e, ["left"%string])
    | Ok l =>
        match predict_for_direction
                (wheel_times req) (ball_times req) "right" with
        | Raise e => (Raise e, ["left"%string; "right"%string])
        | Ok r => (Ok {| left_prediction := l; right_prediction := r |},
                   ["left"%string; "right"%string])
        end
    end.
Proof.
  unfold sufficient, compute_predictions_traced. intros [Hw Hb].
  apply Nat.ltb_ge in Hw, Hb. rewrite Hw, Hb. cbn [orb].
  unfold tbind, call_predict_for_direction, tret. cbn [fst snd].
  destruct (predict_for_direction _ _ "left"); [| reflexivity].
  destruct (predict_for_direction _ _ "right"); reflexivity.
Qed.

(** The insufficient-data error is raised exactly on fewer than two
    wheel marks or fewer than two ball marks, and then without any call
    of [predict_for_direction]. *)
Lemma compute_predictions_insufficient_iff (req : MarksRequest) :
  compute_predictions req
  = Raise (ValueError "Not enough marks to compute prediction")
  <-> ((List.length (wheel_times req) < 2)%nat \/
       (List.length (ball_times req) < 2)%nat).
Proof.
  rewrite <- compute_predictions_erase. split.
  - intros H.
    destruct (Nat.ltb_spec (List.length (wheel_times req)) 2) as [| Hw];
      [left; assumption |].
    destruct (Nat.ltb_spec (List.length (ball_times req)) 2) as [| Hb];
      [right; assumption |].
    exfalso.
    rewrite (compute_predictions_traced_sufficient req (conj Hw Hb)) in H.
    destruct (predict_for_direction_outcome
                (wheel_times req) (ball_times req) "left")
      as [(l & Hl & _) | Hl]; rewrite Hl in H; [| discriminate].
    destruct (predict_for_direction_outcome
                (wheel_times req) (ball_times req) "right")
      as [(r & Hr & _) | Hr]; rewrite Hr in H; discriminate.
  - intros H. rewrite compute_predictions_traced_insufficient;
      [reflexivity | unfold sufficient; lia].
Qed.

Lemma compute_predictions_insufficient_no_call (req : MarksRequest) :
  ((List.length (wheel_times req) < 2)%nat \/
   (List.length (ball_times req) < 2)%nat) ->
  snd (compute_predictions_traced req) = [].
Proof.
  intros H. rewrite compute_predictions_traced_insufficient;
    [reflexivity | unfold sufficient; lia].
Qed.

(** When both calls return, they are the only two calls, "left" first,
    and the response packages their results. *)
Lemma compute_predictions_two_calls (req : MarksRequest) (l r : Z) :
  sufficient req ->
  predict_for_direction (wheel_times req) (ball_times req) "left" = Ok l ->
  predict_for_direction (wheel_times req) (ball_times req) "right" = Ok r ->
  compute_predictions_traced req
  = (Ok {| left_prediction := l; right_prediction := r |},
     ["left"%string; "right"%string]).
Proof.
  intros Hs Hl Hr.
  rewrite (compute_predictions_traced_sufficient req Hs), Hl, Hr.
  reflexivity.
Qed.

(** C1: the final pocket index always lies in [0, 36], and for two lists
    of at least two timestamps both integers that [compute_predictions]
    returns are members of the pocket sequence. *)
Theorem compute_predictions_in_sequence :
  (forall pocket_offset direction_offset,
      0 <= final_pocket_index pocket_offset direction_offset <= 36) /\
  (forall req resp,
      (2 <= List.length (wheel_times req))%nat ->
      (2 <= List.length (ball_times req))%nat ->
      compute_predictions req = Ok resp ->
      In (left_prediction resp) ROULETTE_SEQUENCE /\
      In (right_prediction resp) ROULETTE_SEQUENCE).
Proof.
  split; [apply final_pocket_index_range |].
  intros req resp Hw Hb. rewrite <- compute_predictions_erase.
  rewrite (compute_predictions_traced_sufficient req (conj Hw Hb)).
  destruct (predict_for_direction _ _ "left") as [l |] eqn:El;
    [| discriminate].
  destruct (predict_for_direction _ _ "right") as [r |] eqn:Er;
    [| discriminate].
  cbn [fst]. intros [= <-]. cbn [left_prediction right_prediction].
  split; eapply predict_for_direction_In; eassumption.
Qed.

Lemma compute_predictions_in_sequence_witness :
  compute_predictions
    (mk_request Samples.wheel_example Samples.ball_example)
  = Ok {| left_prediction := 18; right_prediction := 20 |} /\
  In 18 ROULETTE_SEQUENCE /\ In 20 ROULETTE_SEQUENCE.
Proof.
  assert (H : compute_predictions
                (mk_request Samples.wheel_example Samples.ball_example)
              = Ok {| left_prediction := 18; right_prediction := 20 |})
    by (vm_compute; reflexivity).
  split; [exact H |].
  apply (proj2 compute_predictions_in_sequence
           (mk_request Samples.wheel_example Samples.ball_example)
           {| left_prediction := 18; right_prediction := 20 |});
    [simpl; lia | simpl; lia | exact H].
Defined.

(** C2: two ball marks 2.1e-307 seconds apart are enough marks, yet
    [compute_predictions] raises: the call for "left" fails, the call
    for "right" is never made and no pair of results is returned. *)
Theorem compute_predictions_overflow :
  sufficient (mk_request Samples.wheel_slow Samples.ball_fast) /\
  compute_predictions (mk_request Samples.wheel_slow Samples.ball_fast)
  = Raise (OverflowError "cannot convert float infinity to integer") /\
  compute_predictions_traced (mk_request Samples.wheel_slow Samples.ball_fast)
  = (Raise (OverflowError "cannot convert float infinity to integer"),
     ["left"%string]).
Proof.
  split; [split; simpl; lia |].
  split; vm_compute; reflexivity.
Qed.

(** C3: on finite timestamps (wheel marks at 0.0 and 1.0, ball marks at
    0.0 and 2.1e-307) the travel angle of the ball is finite, about
    1.5e308, and is not replaced; [|relative| * 37] overflows and [int]
    raises, for both directions. *)
Theorem predict_for_direction_overflow :
  finite_times Samples.wheel_slow /\
  finite_times Samples.ball_fast /\
  (2 <= List.length Samples.wheel_slow)%nat /\
  (2 <= List.length Samples.ball_fast)%nat /\
  travel_angles Samples.wheel_slow Samples.ball_fast
  = Ok (S754_finite false 7495572138525348 971,
        S754_finite false 8490953469147230 (-48)) /\
  predict_for_direction Samples.wheel_slow Samples.ball_fast "left"
  = Raise (OverflowError "cannot convert float infinity to integer") /\
  predict_for_direction Samples.wheel_slow Samples.ball_fast "right"
  = Raise (OverflowError "cannot convert float infinity to integer").
Proof.
  split; [repeat constructor |].
  split; [repeat constructor |].
  repeat split; try (simpl; lia); vm_compute; reflexivity.
Qed.

(** C9: every direction other than "left" is treated as "right". *)
Theorem predict_for_direction_not_left
    (wheel ball : list F64.t) (direction : string) :
  direction <> "left"%string ->
  predict_for_direction wheel ball direction
  = predict_for_direction wheel ball "right".
Proof.
  intros H. apply String.eqb_neq in H.
  rewrite !predict_for_direction_stages. unfold relative.
  rewrite H. reflexivity.
Qed.

Lemma predict_for_direction_not_left_witness :
  predict_for_direction Samples.wheel_example Samples.ball_example "up"
  = predict_for_direction Samples.wheel_example Samples.ball_example "right".
Proof.
  apply predict_for_direction_not_left. discriminate.
Defined.

(** ** The sequence is a permutation of the pockets *)

Lemma ROULETTE_SEQUENCE_NoDup : NoDup ROULETTE_SEQUENCE.
Proof.
  assert (H : nodup Z.eq_dec ROULETTE_SEQUENCE = ROULETTE_SEQUENCE)
    by (vm_compute; reflexivity).
  rewrite <- H. apply NoDup_nodup.
Qed.

Lemma ROULETTE_SEQUENCE_range (n : Z) :
  In n ROULETTE_SEQUENCE <-> 0 <= n <= 36.
Proof.
  split.
  - assert (H : Forall (fun x => 0 <= x <= 36) ROULETTE_SEQUENCE)
      by (repeat constructor; lia).
    rewrite Forall_forall in H. apply H.
  - intros Hn.
    assert (H : existsb (Z.eqb n) ROULETTE_SEQUENCE = true).
    { revert n Hn. apply forall_pockets. vm_compute. reflexivity. }
    apply existsb_exists in H as (x & Hx & E).
    apply Z.eqb_eq in E. subst x. exact Hx.
Qed.

Lemma final_pocket_index_onto (i direction_offset : Z) :
  0 <= i <= 36 ->
  final_pocket_index ((i - 5 - direction_offset) mod 37) direction_offset = i.
Proof.
  intros Hi. unfold final_pocket_index.
  replace ((i - 5 - direction_offset) mod 37 + 5 + direction_offset)
    with ((i - 5 - direction_offset) mod 37 + (5 + direction_offset)) by lia.
  rewrite Z.add_mod_idemp_l by lia.
  replace (i - 5 - direction_offset + (5 + direction_offset)) with i by lia.
  apply Z.mod_small. lia.
Qed.

(** C10: the sequence has 37 entries and is a permutation of 0..36:
    every pocket number occurs exactly once, distinct indices give
    distinct pockets, and every pocket is the entry at the final index
    of some pocket offset, for either direction offset. *)
Theorem ROULETTE_SEQUENCE_permutation :
  List.length ROULETTE_SEQUENCE = 37%nat /\
  Permutation ROULETTE_SEQUENCE pockets /\
  (forall n, 0 <= n <= 36 ->
             count_occ Z.eq_dec ROULETTE_SEQUENCE n = 1%nat) /\
  (forall i j, 0 <= i <= 36 -> 0 <= j <= 36 ->
               getitem ROULETTE_SEQUENCE i = getitem ROULETTE_SEQUENCE j ->
               i = j) /\
  (forall n direction_offset,
      0 <= n <= 36 ->
      exists pocket_offset,
        0 <= pocket_offset <= 36 /\
        getitem ROULETTE_SEQUENCE
                (final_pocket_index pocket_offset direction_offset) = Ok n).
Proof.
  split; [reflexivity |].
  split.
  { apply NoDup_Permutation.
    - apply ROULETTE_SEQUENCE_NoDup.
    - unfold pockets. apply Finite.Injective_map_NoDup;
        [intros x y; apply Nat2Z.inj | apply seq_NoDup].
    - intros n. rewrite ROULETTE_SEQUENCE_range, pockets_spec. reflexivity. }
  split.
  { intros n Hn. apply NoDup_count_occ'.
    - apply ROULETTE_SEQUENCE_NoDup.
    - apply ROULETTE_SEQUENCE_range, Hn. }
  split.
  { intros i j Hi Hj.
    rewrite !getitem_ROULETTE_SEQUENCE by assumption. intros E.
    assert (E' : nth (Z.to_nat i) ROULETTE_SEQUENCE 0
                 = nth (Z.to_nat j) ROULETTE_SEQUENCE 0) by congruence.
    pose proof (proj1 (NoDup_nth ROULETTE_SEQUENCE 0) ROULETTE_SEQUENCE_NoDup
                  (Z.to_nat i) (Z.to_nat j)) as Hinj.
    change (List.length ROULETTE_SEQUENCE) with 37%nat in Hinj.
    specialize (Hinj ltac:(lia) ltac:(lia) E'). lia. }
  intros n direction_offset Hn.
  apply ROULETTE_SEQUENCE_range in Hn.
  apply (In_nth _ _ 0) in Hn as (i & Hi & E).
  change (List.length ROULETTE_SEQUENCE) with 37%nat in Hi.
  exists ((Z.of_nat i - 5 - direction_offset) mod 37).
  split; [pose proof (Z.mod_pos_bound (Z.of_nat i - 5 - direction_offset) 37);
          lia |].
  rewrite final_pocket_index_onto by lia.
  rewrite getitem_ROULETTE_SEQUENCE by lia.
  rewrite Nat2Z.id, E. reflexivity.
Qed.

Lemma ROULETTE_SEQUENCE_permutation_witness :
  count_occ Z.eq_dec ROULETTE_SEQUENCE 17 = 1%nat /\
  (getitem ROULETTE_SEQUENCE 3 = getitem ROULETTE_SEQUENCE 3 -> 3 = 3) /\
  exists pocket_offset,
    0 <= pocket_offset <= 36 /\
    getitem ROULETTE_SEQUENCE (final_pocket_index pocket_offset 12) = Ok 26.
Proof.
  destruct ROULETTE_SEQUENCE_permutation as (_ & _ & Hc & Hi & Hr).
  split; [apply Hc; lia |].
  split; [apply Hi; lia | apply Hr; lia].
Defined.

(** ** The examples of the specification *)

(** Marks 0.0, 0.5, 1.0, 1.5 of the wheel and 0.0, 0.1, 0.22, 0.36 of the
    ball: two calls, two pockets. *)
Example compute_predictions_example :
  compute_predictions_traced
    (mk_request Samples.wheel_example Samples.ball_example)
  = (Ok {| left_prediction := 18; right_prediction := 20 |},
     ["left"%string; "right"%string]).
Proof. vm_compute. reflexivity. Qed.

(** A single wheel mark: the insufficient-data error, and no call. *)
Example compute_predictions_one_wheel_mark :
  compute_predictions_traced (mk_request [f1_0] [f1_0; f2_0])
  = (Raise (ValueError "Not enough marks to compute prediction"), []).
Proof. reflexivity. Qed.

(** Two identical timestamps on each side: the periods are zero, both
    velocities and both decelerations take their defaults, and two
    pockets are returned. *)
Example compute_predictions_identical_timestamps :
  raw_estimates [f1_0; f1_0] [f1_0; f1_0]
  = {| wheel_omega := f0_0; ball_omega := f0_0;
       wheel_alpha := f0_0; ball_alpha := f0_0 |} /\
  floor_defaults (raw_estimates [f1_0; f1_0] [f1_0; f1_0])
  = {| wheel_omega := f1_0; ball_omega := f2_0;
       wheel_alpha := f0_1; ball_alpha := f0_1 |} /\
  compute_predictions (mk_request [f1_0; f1_0] [f1_0; f1_0])
  = Ok {| left_prediction := 8; right_prediction := 35 |}.
Proof. repeat split; vm_compute; reflexivity. Qed.

(* ===================================================================== *)
(** * More on binary64: rounding away from underflow is not zero *)
(* ===================================================================== *)

Lemma shr_1_digits (mrs : shr_record) :
  0 <= shr_m mrs ->
  Zdigits2 (shr_m (shr_1 mrs)) = Z.max 0 (Zdigits2 (shr_m mrs) - 1).
Proof.
  destruct mrs as [m r s]. cbn [shr_m].
  destruct m as [| [p | p |] | p]; intros H; cbn [shr_1 shr_m Zdigits2 digits2_pos];
    try lia.
Qed.

Lemma iter_shr_1_digits (n : positive) :
  forall mrs,
    0 <= shr_m mrs ->
    Zdigits2 (shr_m (iter_pos shr_1 n mrs))
    = Z.max 0 (Zdigits2 (shr_m mrs) - Z.pos n).
Proof.
  induction n as [n IH | n IH |]; intros mrs H; cbn [iter_pos].
  - rewrite IH by (apply iter_shr_1_nonneg, shr_1_nonneg, H).
    rewrite IH by (apply shr_1_nonneg, H).
    rewrite shr_1_digits by exact H. lia.
  - rewrite IH by (apply iter_shr_1_nonneg, H).
    rewrite IH by exact H. lia.
  - rewrite shr_1_digits by exact H. lia.
Qed.

Lemma Zdigits2_pos (m : Z) : 0 <= m -> (0 < Zdigits2 m <-> 0 < m).
Proof. destruct m; cbn; lia. Qed.

Lemma digits2_pos_succ (p : positive) :
  (digits2_pos p <= digits2_pos (Pos.succ p))%positive.
Proof.
  induction p as [p IH | p IH |]; cbn [Pos.succ digits2_pos]; lia.
Qed.

Lemma round_nearest_even_digits (m : Z) (l : location) :
  0 <= m -> Zdigits2 m <= Zdigits2 (round_nearest_even m l).
Proof.
  intros Hm.
  assert (Hs : Zdigits2 m <= Zdigits2 (m + 1)).
  { destruct m as [| p | p]; try lia; cbn [Zdigits2]; [cbn; lia |].
    replace (Z.pos p + 1) with (Z.pos (Pos.succ p)) by lia.
    cbn [Zdigits2]. pose proof (digits2_pos_succ p). lia. }
  destruct l as [| []]; cbn [round_nearest_even]; try lia.
  destruct (Z.even m); lia.
Qed.

(** The first step of rounding, away from underflow: what is left of the
    mantissa still has digits, and their position is unchanged. *)
Lemma shr_fexp_digits (m e : Z) (l : location) :
  0 < m ->
  SpecFloat.emin prec emax <= Zdigits2 m + e - prec ->
  0 <= shr_m (fst (shr_fexp prec emax m e l)) /\
  0 < Zdigits2 (shr_m (fst (shr_fexp prec emax m e l))) /\
  Zdigits2 (shr_m (fst (shr_fexp prec emax m e l)))
  + snd (shr_fexp prec emax m e l) = Zdigits2 m + e.
Proof.
  intros Hm He.
  assert (Hd : 0 < Zdigits2 m) by (apply Zdigits2_pos; lia).
  split; [apply shr_fexp_nonneg; lia |].
  unfold shr_fexp, shr.
  replace (fexp prec emax (Zdigits2 m + e) - e) with (Zdigits2 m - prec)
    by (unfold fexp; lia).
  destruct (Zdigits2 m - prec) as [| n | n] eqn:En; cbn [fst snd];
    rewrite ?shr_record_of_loc_m; unfold prec in *; try lia.
  rewrite iter_shr_1_digits by (rewrite shr_record_of_loc_m; lia).
  rewrite shr_record_of_loc_m. lia.
Qed.

(** Rounding a positive mantissa that lies above the underflow threshold
    gives a finite number or an infinity, never a zero. *)
Lemma binary_round_aux_nonzero (s : bool) (m e : Z) (l : location) :
  0 < m ->
  SpecFloat.emin prec emax <= Zdigits2 m + e - prec ->
  is_zero (binary_round_aux prec emax s m e l) = false.
Proof.
  intros Hm He. unfold binary_round_aux.
  destruct (shr_fexp_digits m e l Hm He) as (H0 & H1 & H2).
  destruct (shr_fexp prec emax m e l) as [mrs' e']. cbn [fst snd] in *.
  set (m'' := round_nearest_even (shr_m mrs') (loc_of_shr_record mrs')).
  pose proof (round_nearest_even_digits (shr_m mrs')
                (loc_of_shr_record mrs') H0) as Hr. fold m'' in Hr.
  assert (Hm'' : 0 < m'').
  { apply Zdigits2_pos; [apply round_nearest_even_nonneg, H0 | lia]. }
  assert (He'' : SpecFloat.emin prec emax <= Zdigits2 m'' + e' - prec)
    by lia.
  destruct (shr_fexp_digits m'' e' loc_Exact Hm'' He'') as (K0 & K1 & _).
  destruct (shr_fexp prec emax m'' e' loc_Exact) as [mrs'' e''].
  cbn [fst snd] in *.
  destruct (shr_m mrs'') as [| q | q]; cbn in K1; try lia.
  destruct (e'' <=? emax - prec); reflexivity.
Qed.

Lemma digits2_pos_iter_xO (p : positive) (k : positive) :
  Z.pos (digits2_pos (Pos.iter xO p k)) = Z.pos (digits2_pos p) + Z.pos k.
Proof.
  revert p. induction k as [| k IH] using Pos.peano_ind; intros p.
  - cbn. lia.
  - rewrite Pos.iter_succ. cbn [digits2_pos]. rewrite Pos2Z.inj_succ, IH. lia.
Qed.

(** A positive integer becomes a positive float: finite, or the positive
    infinity beyond the range. *)
Lemma of_Z_pos_shape (n : positive) :
  exists x, F64.of_Z (Z.pos n) = x /\
            is_zero x = false /\ F64.is_nan x = false /\
            F64.nonneg_sign x = true.
Proof.
  eexists. split; [reflexivity |].
  unfold F64.of_Z, binary_normalize, binary_round.
  destruct (shl_align n 0 (fexp prec emax (Z.pos (digits2_pos n) + 0)))
    as [mz ez] eqn:E.
  split; [| split].
  - apply binary_round_aux_nonzero; [lia |].
    unfold shl_align in E.
    destruct (fexp prec emax (Z.pos (digits2_pos n) + 0) - 0)
      as [| k | k] eqn:Ek; injection E as <- <-; cbn [Zdigits2].
    + unfold SpecFloat.emin, prec, emax. lia.
    + unfold SpecFloat.emin, prec, emax. lia.
    + rewrite digits2_pos_iter_xO.
      unfold fexp, SpecFloat.emin, prec, emax in *. lia.
  - apply binary_round_aux_not_nan. lia.
  - apply binary_round_aux_sign.
Qed.

Lemma of_nat_S_shape (n : nat) :
  is_zero (F64.of_nat (S n)) = false /\
  F64.is_nan (F64.of_nat (S n)) = false /\
  F64.nonneg_sign (F64.of_nat (S n)) = true.
Proof.
  unfold F64.of_nat. rewrite Nat2Z.inj_succ.
  destruct (Z.succ (Z.of_nat n)) as [| p | p] eqn:E; try lia.
  destruct (of_Z_pos_shape p) as (x & -> & H). exact H.
Qed.

(* ===================================================================== *)
(** * No division by zero *)
(* ===================================================================== *)

Lemma truediv_nonzero (x y : F64.t) :
  is_zero y = false -> Checked.truediv x y = Checked.Returns (F64.div x y).
Proof. destruct y; intros H; try reflexivity. discriminate. Qed.

Lemma ltb_zero_nonzero (x : F64.t) :
  F64.ltb (F64.of_Z 0) x = true -> is_zero x = false.
Proof. destruct x as [s | s | | s m e]; try reflexivity. discriminate. Qed.

Lemma leb_zero_nonzero (x : F64.t) :
  F64.leb x (F64.of_Z 0) = false -> is_zero x = false.
Proof. destruct x as [s | s | | s m e]; try reflexivity. discriminate. Qed.

Lemma eqb_zero_nonzero (x : F64.t) :
  F64.eqb x (F64.of_Z 0) = false -> is_zero x = false.
Proof. destruct x as [s | s | | s m e]; try reflexivity. discriminate. Qed.

Lemma range1_length (times : list F64.t) :
  List.length (range1 times) = (List.length times - 1)%nat.
Proof. unfold range1. apply length_seq. Qed.

Lemma checked_calculate_angular_velocity (times : list F64.t) :
  CheckedProgram.calculate_angular_velocity times
  = Checked.Returns (calculate_angular_velocity times).
Proof.
  unfold CheckedProgram.calculate_angular_velocity,
    calculate_angular_velocity.
  destruct (List.length times <? 2)%nat eqn:Hlen; [reflexivity |].
  apply Nat.ltb_ge in Hlen.
  set (periods := map _ (range1 times)).
  assert (Hn : exists n, List.length periods = S n).
  { exists (List.length times - 2)%nat. unfold periods.
    rewrite length_map, range1_length. lia. }
  destruct Hn as [n Hn]. rewrite Hn.
  rewrite truediv_nonzero by apply of_nat_S_shape.
  cbn [Checked.obind].
  destruct (F64.ltb (F64.of_Z 0) _) eqn:Hpos; [| reflexivity].
  apply truediv_nonzero, ltb_zero_nonzero, Hpos.
Qed.

(** X1: [calculate_angular_velocity] never divides by zero: with the
    raising division of Python it returns, for every list, the value
    computed with the IEEE division. *)
Theorem calculate_angular_velocity_no_zero_division (times : list F64.t) :
  CheckedProgram.calculate_angular_velocity times
  = Checked.Returns (calculate_angular_velocity times).
Proof. exact (checked_calculate_angular_velocity times). Qed.

Lemma deceleration_step_no_zero_division
    (times : list F64.t) (acc : list F64.t * list F64.t) (i : nat) :
  CheckedProgram.deceleration_step times acc i
  = Checked.Returns (deceleration_step times acc i).
Proof.
  unfold CheckedProgram.deceleration_step, deceleration_step.
  destruct acc as [velocities time_points].
  destruct (F64.leb _ _) eqn:Hdt; [reflexivity |].
  rewrite truediv_nonzero by (apply leb_zero_nonzero, Hdt).
  cbn [Checked.obind].
  rewrite truediv_nonzero by reflexivity. reflexivity.
Qed.

Lemma deceleration_loop_no_zero_division
    (times : list F64.t) (idx : list nat) :
  forall acc,
    CheckedProgram.deceleration_loop times idx acc
    = Checked.Returns (fold_left (deceleration_step times) idx acc).
Proof.
  unfold CheckedProgram.deceleration_loop.
  induction idx as [| i idx IH]; intros acc; [reflexivity |].
  cbn [fold_left Checked.obind].
  rewrite deceleration_step_no_zero_division. apply IH.
Qed.

Lemma checked_calculate_deceleration (times : list F64.t) :
  CheckedProgram.calculate_deceleration times
  = Checked.Returns (calculate_deceleration times).
Proof.
  unfold CheckedProgram.calculate_deceleration, calculate_deceleration.
  destruct (List.length times <? 3)%nat; [reflexivity |].
  rewrite deceleration_loop_no_zero_division. cbn [Checked.obind].
  destruct (fold_left _ _ _) as [velocities time_points].
  destruct (List.length velocities <? 2)%nat; [reflexivity |].
  destruct (F64.eqb _ _) eqn:Hden; [reflexivity |].
  rewrite truediv_nonzero by (apply eqb_zero_nonzero, Hden).
  reflexivity.
Qed.

(** X2: [calculate_deceleration] never divides by zero: the gaps it
    divides by are not zero, and the regression is skipped on a zero
    denominator. *)
Theorem calculate_deceleration_no_zero_division (times : list F64.t) :
  CheckedProgram.calculate_deceleration times
  = Checked.Returns (calculate_deceleration times).
Proof. exact (checked_calculate_deceleration times). Qed.

Lemma two_pi_nonzero : is_zero (F64.mul (F64.of_Z 2) math_pi) = false.
Proof. reflexivity. Qed.

Lemma checked_predict_for_direction
    (wheel ball : list F64.t) (direction : string) :
  CheckedProgram.predict_for_direction wheel ball direction
  = Checked.lift (predict_for_direction wheel ball direction).
Proof.
  unfold CheckedProgram.predict_for_direction, predict_for_direction.
  rewrite !checked_calculate_angular_velocity,
    !checked_calculate_deceleration.
  cbn [Checked.obind].
  set (ball_alpha := if F64.leb (calculate_deceleration ball) _ then _ else _).
  set (ball_omega := if F64.leb (F64.mul _ (calculate_angular_velocity ball)) _
                     then _ else _).
  assert (Hdiv : forall x,
             Checked.truediv x (F64.mul (F64.of_Z 2) math_pi)
             = Checked.Returns (F64.div x (F64.mul (F64.of_Z 2) math_pi)))
    by (intros x; apply truediv_nonzero, two_pi_nonzero).
  destruct (F64.ltb (F64.of_Z 0) ball_alpha) eqn:Hpos;
    cbn [Checked.obind bind Checked.lift].
  - destruct (math_sqrt _) as [c |]; cbn [Checked.lift Checked.obind bind];
      [| reflexivity].
    destruct (F64.ltb c ball_omega); cbn [Checked.obind bind].
    + rewrite truediv_nonzero by (apply ltb_zero_nonzero, Hpos).
      cbn [Checked.obind].
      destruct (String.eqb direction "left"); rewrite Hdiv;
        cbn [Checked.obind]; destruct (py_int _); reflexivity.
    + destruct (String.eqb direction "left"); rewrite Hdiv;
        cbn [Checked.obind]; destruct (py_int _); reflexivity.
  - destruct (String.eqb direction "left"); rewrite Hdiv;
      cbn [Checked.obind]; destruct (py_int _); reflexivity.
Qed.

(** X3: [predict_for_direction] never divides by zero: with the raising
    division it returns or raises exactly as with the IEEE division, for
    all timestamps and every direction. *)
Theorem predict_for_direction_no_zero_division
    (wheel ball : list F64.t) (direction : string) :
  CheckedProgram.predict_for_direction wheel ball direction
  = Checked.lift (predict_for_direction wheel ball direction).
Proof. exact (checked_predict_for_direction wheel ball direction). Qed.

Lemma compute_predictions_no_zero_division (req : MarksRequest) :
  CheckedProgram.compute_predictions req
  = Checked.lift (compute_predictions req).
Proof.
  unfold CheckedProgram.compute_predictions, compute_predictions.
  destruct (_ || _); [reflexivity |].
  rewrite !checked_predict_for_direction.
  destruct (predict_for_direction _ _ "left"); [| reflexivity].
  cbn [Checked.lift Checked.obind bind].
  destruct (predict_for_direction _ _ "right"); reflexivity.
Qed.

Lemma checked_compute_predictions_outcomes (req : MarksRequest) :
  (~ sufficient req /\
   CheckedProgram.compute_predictions req
   = Checked.Raises
       (Checked.Builtin
          (ValueError "Not enough marks to compute prediction"))) \/
  (sufficient req /\
   exists resp,
     CheckedProgram.compute_predictions req = Checked.Returns resp /\
     In (left_prediction resp) ROULETTE_SEQUENCE /\
     In (right_prediction resp) ROULETTE_SEQUENCE) \/
  (sufficient req /\
   CheckedProgram.compute_predictions req
   = Checked.Raises
       (Checked.Builtin
          (OverflowError "cannot convert float infinity to integer"))).
Proof.
  rewrite compute_predictions_no_zero_division,
    <- compute_predictions_erase.
  destruct (Nat.ltb_spec (List.length (wheel_times req)) 2) as [Hw | Hw].
  { left. split; [unfold sufficient; lia |].
    rewrite compute_predictions_traced_insufficient by (unfold sufficient; lia).
    reflexivity. }
  destruct (Nat.ltb_spec (List.length (ball_times req)) 2) as [Hb | Hb].
  { left. split; [unfold sufficient; lia |].
    rewrite compute_predictions_traced_insufficient by (unfold sufficient; lia).
    reflexivity. }
  right. rewrite (compute_predictions_traced_sufficient req (conj Hw Hb)).
  destruct (predict_for_direction_outcome
              (wheel_times req) (ball_times req) "left")
    as [(l & -> & Hl) | ->];
    [| right; split; [split; assumption | reflexivity]].
  destruct (predict_for_direction_outcome
              (wheel_times req) (ball_times req) "right")
    as [(r & -> & Hr) | ->];
    [| right; split; [split; assumption | reflexivity]].
  left. split; [split; assumption |].
  eexists. split; [reflexivity | split; assumption].
Qed.

(** X4: the three outcomes of [compute_predictions], division by zero
    included: the insufficient-data [ValueError] on fewer than two marks
    on a side; otherwise a response with two pockets of the sequence, or
    the [OverflowError] of [int] at infinity.  It raises nothing else:
    no [ZeroDivisionError], no [IndexError], no other [ValueError]. *)
Theorem compute_predictions_outcomes (req : MarksRequest) :
  (~ sufficient req /\
   CheckedProgram.compute_predictions req
   = Checked.Raises
       (Checked.Builtin
          (ValueError "Not enough marks to compute prediction"))) \/
  (sufficient req /\
   exists resp,
     CheckedProgram.compute_predictions req = Checked.Returns resp /\
     In (left_prediction resp) ROULETTE_SEQUENCE /\
     In (right_prediction resp) ROULETTE_SEQUENCE) \/
  (sufficient req /\
   CheckedProgram.compute_predictions req
   = Checked.Raises
       (Checked.Builtin
          (OverflowError "cannot convert float infinity to integer"))).
Proof. exact (checked_compute_predictions_outcomes req). Qed.

(* ===================================================================== *)
(** * The endpoint *)
(* ===================================================================== *)

Lemma checked_predict_marks_outcomes (req : MarksRequest) :
  (~ sufficient req /\
   CheckedProgram.predict_marks req = inr not_enough_marks) \/
  (sufficient req /\
   exists resp,
     CheckedProgram.predict_marks req = inl resp /\
     In (left_prediction resp) ROULETTE_SEQUENCE /\
     In (right_prediction resp) ROULETTE_SEQUENCE) \/
  (sufficient req /\
   CheckedProgram.predict_marks req = inr prediction_failed).
Proof.
  unfold CheckedProgram.predict_marks.
  destruct (checked_compute_predictions_outcomes req)
    as [[Hs ->] | [(Hs & resp & -> & H) | [Hs ->]]].
  - left. split; [exact Hs | reflexivity].
  - right. left. split; [exact Hs |]. exists resp. split; [reflexivity | exact H].
  - right. right. split; [exact Hs | reflexivity].
Qed.

(** X5: the endpoint answers in one of three ways: the response with two
    pockets of the sequence; status 400 with the insufficient-data
    message, exactly when a side has fewer than two marks; or status 500
    with the fixed detail "Prediction failed", which needs two marks on
    each side. *)
Theorem predict_marks_outcomes (req : MarksRequest) :
  (~ sufficient req /\
   CheckedProgram.predict_marks req = inr not_enough_marks) \/
  (sufficient req /\
   exists resp,
     CheckedProgram.predict_marks req = inl resp /\
     In (left_prediction resp) ROULETTE_SEQUENCE /\
     In (right_prediction resp) ROULETTE_SEQUENCE) \/
  (sufficient req /\
   CheckedProgram.predict_marks req = inr prediction_failed).
Proof. exact (checked_predict_marks_outcomes req). Qed.

(** X6: the endpoint answers with status 400 if and only if the wheel
    or the ball has fewer than two timestamps. *)
Theorem predict_marks_bad_request_iff (req : MarksRequest) :
  (exists e, CheckedProgram.predict_marks req = inr e /\
             CheckedProgram.status_code e = 400)
  <-> ((List.length (wheel_times req) < 2)%nat \/
       (List.length (ball_times req) < 2)%nat).
Proof.
  split.
  - intros (e & He & Hst).
    destruct (checked_predict_marks_outcomes req)
      as [[Hs _] | [(_ & resp & H & _) | [_ H]]].
    + unfold sufficient in Hs. lia.
    + rewrite H in He. discriminate.
    + rewrite H in He. injection He as <-. discriminate.
  - intros H.
    destruct (checked_predict_marks_outcomes req)
      as [[_ E] | [(Hs & _) | [Hs _]]];
      try (unfold sufficient in Hs; lia).
    exists not_enough_marks. split; [exact E | reflexivity].
Qed.

Lemma predict_marks_bad_request_iff_witness :
  exists e,
    CheckedProgram.predict_marks (mk_request [f1_0] [f1_0; f2_0]) = inr e /\
    CheckedProgram.status_code e = 400.
Proof.
  apply (proj2 (predict_marks_bad_request_iff
                  (mk_request [f1_0] [f1_0; f2_0]))).
  left. simpl. lia.
Defined.

(** X7: the answer of the endpoint depends on the two timing sequences
    only: [wheel_marks], [ball_marks] and [mode] are never read. *)
Theorem predict_marks_unused_fields (req req' : MarksRequest) :
  wheel_times req = wheel_times req' ->
  ball_times req = ball_times req' ->
  CheckedProgram.predict_marks req = CheckedProgram.predict_marks req'.
Proof.
  intros Hw Hb.
  unfold CheckedProgram.predict_marks, CheckedProgram.compute_predictions.
  rewrite Hw, Hb. reflexivity.
Qed.

Lemma predict_marks_unused_fields_witness :
  CheckedProgram.predict_marks
    {| wheel_times := Samples.wheel_example;
       ball_times := Samples.ball_example;
       wheel_marks := 0; ball_marks := 99; mode := "1x1" |}
  = CheckedProgram.predict_marks
      (mk_request Samples.wheel_example Samples.ball_example).
Proof.
  apply predict_marks_unused_fields; reflexivity.
Defined.

(* ===================================================================== *)
(** * Signs and ranges of the estimates *)
(* ===================================================================== *)

Lemma binary_round_aux_has_sign (s : bool) (m e : Z) (l : location) :
  has_sign s (binary_round_aux prec emax s m e l) = true.
Proof.
  unfold binary_round_aux.
  destruct (shr_fexp prec emax m e l) as [mrs' e'].
  destruct (shr_fexp prec emax _ e' loc_Exact) as [mrs'' e''].
  destruct (shr_m mrs'') as [| q | q]; [| destruct (e'' <=? emax - prec) |];
    cbn [has_sign]; try apply eqb_reflx. reflexivity.
Qed.

(** A number with a clear sign bit is at least zero. *)
Lemma nonneg_sign_leb (x : F64.t) :
  F64.nonneg_sign x = true -> F64.is_nan x = false ->
  F64.leb (F64.of_Z 0) x = true.
Proof.
  destruct x as [s | s | | s m e]; try destruct s; intros Hs Hn;
    try discriminate; reflexivity.
Qed.

Lemma leb_zero_shape (x : F64.t) :
  F64.leb (F64.of_Z 0) x = true ->
  F64.is_nan x = false /\
  (is_zero x = true \/ F64.nonneg_sign x = true).
Proof.
  destruct x as [s | s | | s m e]; try destruct s; intros H;
    try discriminate; split; try reflexivity; auto.
Qed.

(** A positive finite number divided by a positive number is at least
    zero. *)
Lemma div_pos_nonneg (mx : positive) (ex : Z) (y : F64.t) :
  F64.ltb (F64.of_Z 0) y = true ->
  F64.leb (F64.of_Z 0) (F64.div (S754_finite false mx ex) y) = true.
Proof.
  destruct y as [sy | sy | | sy my ey]; try destruct sy; try discriminate;
    intros _; try reflexivity.
  apply nonneg_sign_leb.
  - unfold F64.div, SFdiv.
    destruct (SFdiv_core_binary prec emax (Z.pos mx) ex (Z.pos my) ey)
      as [[mz ez] lz].
    apply binary_round_aux_sign.
  - apply (div_finite_not_nan (S754_finite false mx ex) false my ey).
    reflexivity.
Qed.

Lemma calculate_angular_velocity_leb_zero (times : list F64.t) :
  F64.leb (F64.of_Z 0) (calculate_angular_velocity times) = true.
Proof.
  rewrite calculate_angular_velocity_unfold.
  destruct (List.length times <? 2)%nat; [reflexivity |].
  destruct (F64.ltb _ _) eqn:Hpos; [| reflexivity].
  apply div_pos_nonneg, Hpos.
Qed.

(** X8: for every list of floats, [calculate_angular_velocity] returns a
    number that is at least zero: never a negative number, never NaN. *)
Theorem calculate_angular_velocity_nonneg (times : list F64.t) :
  F64.leb (F64.of_Z 0) (calculate_angular_velocity times) = true.
Proof. exact (calculate_angular_velocity_leb_zero times). Qed.

(** A number at least zero times 2 pi is at least zero. *)
Lemma two_pi_mul_nonneg (x : F64.t) :
  F64.leb (F64.of_Z 0) x = true ->
  F64.leb (F64.of_Z 0) (F64.mul (F64.mul (F64.of_Z 2) math_pi) x) = true.
Proof.
  destruct x as [s | s | | s m e]; try destruct s; intros H;
    try discriminate; try reflexivity.
  apply nonneg_sign_leb.
  - apply binary_round_aux_sign.
  - apply binary_round_aux_not_nan. lia.
Qed.

Lemma default_positive (x d : F64.t) :
  F64.leb (F64.of_Z 0) x = true ->
  F64.ltb (F64.of_Z 0) d = true ->
  F64.ltb (F64.of_Z 0) (if F64.leb x (F64.of_Z 0) then d else x) = true.
Proof.
  intros Hx Hd. destruct (F64.leb x (F64.of_Z 0)) eqn:E; [exact Hd |].
  destruct (leb_zero_shape x Hx) as [Hn _].
  rewrite (leb_zero_ltb x Hn) in E.
  apply negb_false_iff in E. exact E.
Qed.

Lemma default_positive_or_nan (x d : F64.t) :
  F64.ltb (F64.of_Z 0) d = true ->
  F64.ltb (F64.of_Z 0) (if F64.leb x (F64.of_Z 0) then d else x)
  = negb (F64.is_nan x).
Proof.
  intros Hd. destruct (F64.is_nan x) eqn:Hn.
  - destruct x; try discriminate. reflexivity.
  - rewrite (leb_zero_ltb x Hn).
    destruct (F64.ltb (F64.of_Z 0) x) eqn:E; cbn [negb]; [exact E | exact Hd].
Qed.

(** X9: after the defaults the two angular velocities are strictly
    positive for all timestamps, and each deceleration is strictly
    positive unless its estimate is NaN (which the defaults let
    through). *)
Theorem floor_defaults_positive (wheel ball : list F64.t) :
  let raw := raw_estimates wheel ball in
  let e := floor_defaults raw in
  F64.ltb (F64.of_Z 0) (wheel_omega e) = true /\
  F64.ltb (F64.of_Z 0) (ball_omega e) = true /\
  F64.ltb (F64.of_Z 0) (wheel_alpha e) = negb (F64.is_nan (wheel_alpha raw)) /\
  F64.ltb (F64.of_Z 0) (ball_alpha e) = negb (F64.is_nan (ball_alpha raw)).
Proof.
  cbn [floor_defaults raw_estimates wheel_omega ball_omega wheel_alpha
       ball_alpha].
  repeat split.
  - apply default_positive; [| reflexivity].
    apply two_pi_mul_nonneg, calculate_angular_velocity_leb_zero.
  - apply default_positive; [| reflexivity].
    apply two_pi_mul_nonneg, calculate_angular_velocity_leb_zero.
  - apply default_positive_or_nan. reflexivity.
  - apply default_positive_or_nan. reflexivity.
Qed.

(** ** The drop time *)

Lemma SFcompare_antisym (x y : F64.t) :
  SFcompare y x = option_map CompOpp (SFcompare x y).
Proof.
  destruct x as [sx | sx | | sx mx ex]; destruct y as [sy | sy | | sy my ey];
    try destruct sx; try destruct sy; try reflexivity;
    cbn [SFcompare option_map]; rewrite (Z.compare_antisym ey ex);
    destruct (ey ?= ex); cbn [CompOpp]; try reflexivity;
    rewrite (Pos.compare_cont_antisym mx my Eq); reflexivity.
Qed.

(** Between two numbers, [x < y] fails exactly when [y <= x] holds. *)
Lemma ltb_false_leb (x y : F64.t) :
  F64.is_nan x = false -> F64.is_nan y = false ->
  F64.ltb x y = false -> F64.leb y x = true.
Proof.
  unfold F64.ltb, F64.leb, SFltb, SFleb. intros Hx Hy.
  rewrite (SFcompare_antisym x y).
  destruct (SFcompare x y) as [[] |] eqn:E; cbn; try reflexivity;
    try discriminate.
  destruct x as [sx | sx | | sx mx ex]; destruct y as [sy | sy | | sy my ey];
    try discriminate; try destruct sx; try destruct sy; discriminate.
Qed.

(** X10: the drop time that [predict_for_direction] uses is never
    negative and never above 10, whatever the estimates: it is NaN, or a
    number from 0 to 10. *)
Theorem drop_time_range (e : estimates) :
  exists t,
    drop_time e = Ok t /\
    F64.ltb t (F64.of_Z 0) = false /\
    F64.ltb (F64.of_Z 10) t = false /\
    (F64.is_nan t = false ->
     F64.leb (F64.of_Z 0) t = true /\ F64.leb t (F64.of_Z 10) = true).
Proof.
  exists (drop_time_guarded e). split; [apply drop_time_unfold |].
  unfold drop_time_guarded, clamp_drop_time.
  set (raw := if _ && _ then _ else _).
  assert (H : let t1 := if F64.ltb raw (F64.of_Z 0) then f3_0 else raw in
              let t := if F64.ltb (F64.of_Z 10) t1 then f5_0 else t1 in
              F64.ltb t (F64.of_Z 0) = false /\
              F64.ltb (F64.of_Z 10) t = false).
  { cbv zeta.
    destruct (F64.ltb raw (F64.of_Z 0)) eqn:E1.
    - split; reflexivity.
    - destruct (F64.ltb (F64.of_Z 10) raw) eqn:E2;
        [split; reflexivity | split; assumption]. }
  cbv zeta in H. destruct H as [H0 H10].
  split; [exact H0 |]. split; [exact H10 |].
  intros Hn. split; apply ltb_false_leb; try assumption; reflexivity.
Qed.


Lemma drop_time_range_witness :
  exists t,
    drop_time (floor_defaults
                 (raw_estimates Samples.wheel_example Samples.ball_example))
    = Ok t /\
    F64.leb (F64.of_Z 0) t = true /\ F64.leb t (F64.of_Z 10) = true.
Proof.
  destruct (drop_time_range
              (floor_defaults
                 (raw_estimates Samples.wheel_example Samples.ball_example)))
    as (t & Ht & _ & _ & H).
  exists t. split; [exact Ht |]. apply H.
  vm_compute in Ht. injection Ht as <-. reflexivity.
Defined.

(* ===================================================================== *)
(** * Stalled marks *)
(* ===================================================================== *)

Lemma has_sign_true_nonpos (x : F64.t) :
  has_sign true x = true -> F64.is_nan x = false ->
  F64.leb x (F64.of_Z 0) = true.
Proof.
  destruct x as [s | s | | s m e]; try destruct s; intros Hs Hn;
    try discriminate; reflexivity.
Qed.

(** The sum of two numbers that are at most zero is at most zero. *)
Lemma add_nonpos (x y : F64.t) :
  F64.leb x (F64.of_Z 0) = true -> F64.leb y (F64.of_Z 0) = true ->
  F64.leb (F64.add x y) (F64.of_Z 0) = true.
Proof.
  destruct x as [sx | sx | | sx mx ex]; try destruct sx; try discriminate;
    destruct y as [sy | sy | | sy my ey]; try destruct sy; try discriminate;
    intros _ _; try reflexivity.
  unfold F64.add, SFadd. cbn [cond_Zopp Z.opp Z.add].
  unfold binary_normalize, binary_round.
  destruct (shl_align _ _ _) as [mz ez].
  apply has_sign_true_nonpos.
  - apply binary_round_aux_has_sign.
  - apply binary_round_aux_not_nan. lia.
Qed.

Lemma fold_add_nonpos (xs : list F64.t) :
  Forall (fun x => F64.leb x (F64.of_Z 0) = true) xs ->
  forall acc,
    F64.leb acc (F64.of_Z 0) = true ->
    F64.leb (fold_left F64.add xs acc) (F64.of_Z 0) = true.
Proof.
  induction 1 as [| x xs Hx _ IH]; intros acc Hacc; [exact Hacc |].
  cbn [fold_left]. apply IH, add_nonpos; assumption.
Qed.

(** A number at most zero divided by a positive one is not positive. *)
Lemma div_nonpos_not_positive (x y : F64.t) :
  F64.leb x (F64.of_Z 0) = true ->
  is_zero y = false -> F64.is_nan y = false -> F64.nonneg_sign y = true ->
  F64.ltb (F64.of_Z 0) (F64.div x y) = false.
Proof.
  destruct x as [sx | sx | | sx mx ex]; try destruct sx; try discriminate;
    destruct y as [sy | sy | | sy my ey]; try destruct sy; try discriminate;
    intros _ _ _ _; try reflexivity.
  unfold F64.div, SFdiv.
  destruct (SFdiv_core_binary prec emax (Z.pos mx) ex (Z.pos my) ey)
    as [[mz ez] lz].
  cbn [xorb].
  pose proof (binary_round_aux_has_sign true mz ez lz) as H.
  destruct (binary_round_aux prec emax true mz ez lz) as [s | s | | s m e];
    try destruct s; try discriminate; reflexivity.
Qed.

Lemma stalled_differences (times : list F64.t) :
  stalled times ->
  Forall (fun x => F64.leb x (F64.of_Z 0) = true)
         (successive_differences times).
Proof.
  unfold stalled, successive_differences. intros H.
  induction H as [| [a b] ps Hp _ IH]; cbn [map]; constructor; assumption.
Qed.

Lemma stalled_no_kept_pair (times : list F64.t) :
  stalled times -> filter kept (consecutive_pairs times) = [].
Proof.
  unfold stalled. intros H.
  induction H as [| p ps Hp _ IH]; [reflexivity |].
  cbn [filter]. unfold kept at 1. rewrite Hp. exact IH.
Qed.

Lemma stalled_estimates_zero (times : list F64.t) :
  stalled times ->
  calculate_angular_velocity times = f0_0 /\
  calculate_deceleration times = f0_0.
Proof.
  intros H. split.
  - rewrite calculate_angular_velocity_unfold.
    destruct (List.length times <? 2)%nat eqn:Hlen; [reflexivity |].
    apply Nat.ltb_ge in Hlen.
    replace (F64.ltb _ _) with false; [reflexivity |]. symmetry.
    unfold average.
    assert (Hn : exists n, List.length (successive_differences times) = S n).
    { exists (List.length times - 2)%nat. unfold successive_differences.
      rewrite length_map, consecutive_pairs_length. lia. }
    destruct Hn as [n ->].
    destruct (of_nat_S_shape n) as (Hz & Hnan & Hs).
    apply div_nonpos_not_positive; try assumption.
    apply fold_add_nonpos; [apply stalled_differences, H | reflexivity].
  - rewrite calculate_deceleration_kept, stalled_no_kept_pair by exact H.
    destruct (List.length times <? 3)%nat; reflexivity.
Qed.

(** X11: on a list none of whose computed gaps is positive, of any
    length, both the velocity and the deceleration are 0.0. *)
Theorem stalled_helpers (times : list F64.t) :
  stalled times ->
  calculate_angular_velocity times = f0_0 /\
  calculate_deceleration times = f0_0.
Proof. exact (stalled_estimates_zero times). Qed.

Lemma stalled_helpers_witness :
  stalled [f2_0; f1_0; f1_0; f0_0] /\
  calculate_angular_velocity [f2_0; f1_0; f1_0; f0_0] = f0_0 /\
  calculate_deceleration [f2_0; f1_0; f1_0; f0_0] = f0_0.
Proof.
  assert (H : stalled [f2_0; f1_0; f1_0; f0_0])
    by (repeat constructor).
  split; [exact H | apply stalled_helpers, H].
Defined.

Lemma predict_for_direction_estimates
    (wheel ball wheel' ball' : list F64.t) (direction : string) :
  raw_estimates wheel ball = raw_estimates wheel' ball' ->
  predict_for_direction wheel ball direction
  = predict_for_direction wheel' ball' direction.
Proof.
  intros H. rewrite !predict_for_direction_stages.
  unfold travel_angles. rewrite H. reflexivity.
Qed.

(** X12: when no computed gap is positive on the wheel nor on the ball,
    and each has at least two marks, every estimate takes its default
    and the answer is always the same: left 8, right 35. *)
Theorem stalled_prediction (req : MarksRequest) :
  sufficient req ->
  stalled (wheel_times req) -> stalled (ball_times req) ->
  compute_predictions req
  = Ok {| left_prediction := 8; right_prediction := 35 |} /\
  CheckedProgram.predict_marks req
  = inl {| left_prediction := 8; right_prediction := 35 |}.
Proof.
  intros Hs Hw Hb.
  assert (Hraw : raw_estimates (wheel_times req) (ball_times req)
                 = raw_estimates [] []).
  { unfold raw_estimates.
    destruct (stalled_estimates_zero _ Hw) as [-> ->].
    destruct (stalled_estimates_zero _ Hb) as [-> ->]. reflexivity. }
  assert (H : compute_predictions req
              = Ok {| left_prediction := 8; right_prediction := 35 |}).
  { rewrite <- compute_predictions_erase,
      (compute_predictions_traced_sufficient req Hs).
    rewrite !(predict_for_direction_estimates _ _ [] [] _ Hraw).
    vm_compute. reflexivity. }
  split; [exact H |].
  unfold CheckedProgram.predict_marks.
  rewrite compute_predictions_no_zero_division, H. reflexivity.
Qed.

Lemma stalled_prediction_witness :
  compute_predictions (mk_request [f2_0; f1_0; f1_0; f0_0] [f1_0; f1_0])
  = Ok {| left_prediction := 8; right_prediction := 35 |} /\
  CheckedProgram.predict_marks
    (mk_request [f2_0; f1_0; f1_0; f0_0] [f1_0; f1_0])
  = inl {| left_prediction := 8; right_prediction := 35 |}.
Proof.
  apply stalled_prediction.
  - split; simpl; lia.
  - repeat constructor.
  - repeat constructor.
Defined.

(* ===================================================================== *)
(** * Pocket offsets and pockets *)
(* ===================================================================== *)

(** X13: for a fixed direction offset, distinct pocket offsets select
    distinct pockets: the 37 offsets reach the 37 pockets one to one. *)
Theorem pocket_offset_injective (direction_offset k k' : Z) :
  0 <= k <= 36 -> 0 <= k' <= 36 ->
  getitem ROULETTE_SEQUENCE (final_pocket_index k direction_offset)
  = getitem ROULETTE_SEQUENCE (final_pocket_index k' direction_offset) ->
  k = k'.
Proof.
  intros Hk Hk'.
  pose proof (final_pocket_index_range k direction_offset) as Hi.
  pose proof (final_pocket_index_range k' direction_offset) as Hi'.
  rewrite !getitem_ROULETTE_SEQUENCE by assumption. intros E.
  assert (E' : nth (Z.to_nat (final_pocket_index k direction_offset))
                   ROULETTE_SEQUENCE 0
               = nth (Z.to_nat (final_pocket_index k' direction_offset))
                     ROULETTE_SEQUENCE 0) by congruence.
  pose proof (proj1 (NoDup_nth ROULETTE_SEQUENCE 0) ROULETTE_SEQUENCE_NoDup
                (Z.to_nat (final_pocket_index k direction_offset))
                (Z.to_nat (final_pocket_index k' direction_offset))) as Hidx.
  change (List.length ROULETTE_SEQUENCE) with 37%nat in Hidx.
  specialize (Hidx ltac:(lia) ltac:(lia) E').
  assert (Heq : final_pocket_index k direction_offset
                = final_pocket_index k' direction_offset) by lia.
  unfold final_pocket_index in Heq.
  pose proof (Z.div_mod (k + 5 + direction_offset) 37 ltac:(lia)).
  pose proof (Z.div_mod (k' + 5 + direction_offset) 37 ltac:(lia)).
  lia.
Qed.

Lemma pocket_offset_injective_witness :
  getitem ROULETTE_SEQUENCE (final_pocket_index 3 12)
  = getitem ROULETTE_SEQUENCE (final_pocket_index (1 + 2) 12) /\
  3 = 1 + 2.
Proof.
  split; [reflexivity |].
  apply (pocket_offset_injective 12 3 (1 + 2)); [lia | lia | reflexivity].
Defined.

(* ===================================================================== *)
(** * When the prediction succeeds *)
(* ===================================================================== *)

(** X14: for all timestamps, finite or not, the stage up to the travel
    angles raises nothing and both angles it hands on are finite. *)
Theorem travel_angles_finite (wheel ball : list F64.t) :
  exists theta_ball theta_wheel,
    travel_angles wheel ball = Ok (theta_ball, theta_wheel) /\
    F64.isfinite theta_ball = true /\ F64.isfinite theta_wheel = true.
Proof. exact (travel_angles_total wheel ball). Qed.

(** X15: [predict_for_direction] returns a pocket exactly when
    [|relative_angle| * 37] is finite; otherwise that product is an
    infinity and [int] raises [OverflowError]. *)
Theorem predict_for_direction_succeeds_iff
    (wheel ball : list F64.t) (direction : string)
    (theta_ball theta_wheel : F64.t) :
  travel_angles wheel ball = Ok (theta_ball, theta_wheel) ->
  let relative_angle := fst (relative direction theta_ball theta_wheel) in
  let product := F64.mul (F64.abs relative_angle) (F64.of_Z 37) in
  ((exists v, predict_for_direction wheel ball direction = Ok v)
   <-> F64.isfinite product = true) /\
  (predict_for_direction wheel ball direction
   = Raise (OverflowError "cannot convert float infinity to integer")
   <-> product = S754_infinity false).
Proof.
  intros Hangles relative_angle product.
  destruct (travel_angles_total wheel ball)
    as (tb & tw & Heq & Hb & Hw).
  rewrite Hangles in Heq. injection Heq as <- <-.
  pose proof (relative_not_nan direction _ _ Hb Hw) as Hnan.
  fold relative_angle in Hnan.
  assert (Hprod : F64.is_nan product = false)
    by (apply mul_finite_not_nan, abs_not_nan, Hnan).
  assert (Hsign : F64.nonneg_sign product = true)
    by apply abs_mul_37_sign.
  rewrite predict_for_direction_stages, Hangles. cbn [bind].
  unfold relative_angle in *. clear relative_angle.
  destruct (relative direction theta_ball theta_wheel)
    as [r direction_offset]. cbn [fst] in *.
  unfold select_pocket. fold product.
  destruct product as [s | s | | s m e] eqn:Ep; try discriminate.
  - cbn [py_int F64.trunc bind F64.isfinite].
    rewrite getitem_ROULETTE_SEQUENCE by apply final_pocket_index_range.
    split; split; try discriminate; eauto.
  - destruct s; [discriminate |].
    cbn [py_int F64.trunc F64.is_nan bind F64.isfinite].
    split; split; try discriminate; try reflexivity.
    intros [v Hv]. discriminate.
  - cbn [py_int F64.trunc bind F64.isfinite].
    rewrite getitem_ROULETTE_SEQUENCE by apply final_pocket_index_range.
    split; split; try discriminate; eauto.
Qed.

Lemma predict_for_direction_succeeds_iff_witness :
  (exists v,
      predict_for_direction
        Samples.wheel_example Samples.ball_example "left" = Ok v) /\
  F64.mul
    (F64.abs (fst (relative "right"
                     (S754_finite false 7495572138525348 971)
                     (S754_finite false 8490953469147230 (-48)))))
    (F64.of_Z 37) = S754_infinity false.
Proof.
  split.
  - apply (proj1 (predict_for_direction_succeeds_iff
                    Samples.wheel_example Samples.ball_example "left"
                    (S754_finite false 5194100599147393 (-48))
                    (S754_finite false 4942865863060345 (-49))
                    ltac:(vm_compute; reflexivity))).
    vm_compute. reflexivity.
  - apply (proj2 (predict_for_direction_succeeds_iff
                    Samples.wheel_slow Samples.ball_fast "right"
                    (S754_finite false 7495572138525348 971)
                    (S754_finite false 8490953469147230 (-48))
                    ltac:(vm_compute; reflexivity))).
    vm_compute. reflexivity.
Defined.
